(** * Sentiment agent: a shallow embedding of [src/agent.py]

    The development models the cognitive pipeline of the agent
    (perception, memory recall and storage, internal dialogue, response
    synthesis, orchestration) and states the properties of its
    specification over that model.

    Modelling conventions.
    - Python [str] is [string]; [str.lower] acts on the ASCII letters and
      [str.split()] splits on the ASCII whitespace characters.
    - Python [float] is modelled by exact rationals [Q]; the numeric [==],
      [<] and [>] of Python are [Qeq], [Qlt] and [Qgt] (decided through
      [Qcompare]).  Not-a-number values are outside the model.
    - [datetime] is the naive datetime with its seven integer fields.
    - A perception is a [dict]; a key that may be absent is an [option]
      field, [d.get(k, default)] is [default] on [None] and [d[k]] raises
      [KeyError] on [None].
    - The trait profile of the dialogue engine is a [gmap string Q], the
      file system a [gmap string file] from paths to file contents.
    - [json.dump] and [json.load] are modelled on the document they write
      and read: a list of records whose fields have the types the [Memory]
      dataclass declares, the timestamp as ISO-8601 text.
    - The orchestrator reaches the perception and response stages through
      its [mind] attribute; the attribute is a record of the two methods,
      and [CoreMind.__init__] is the one the source installs.
    - Exceptions are values of [exn] (every constructor stands for a
      subclass of Python's [Exception]); stateful methods live in the
      state-and-exception monad [M].  Calls to [logging] do not influence
      control flow or data and are left out. *)

From Stdlib Require Import ZArith QArith Qabs String Ascii List Lia Bool Sorted.
From Stdlib Require Import Lqa.
From stdpp Require Import base option gmap strings list.
Import ListNotations.
Open Scope string_scope.

(** ** Python string primitives *)

Module Py.

(** [c.lower()] for a single ASCII character. *)
Definition lower_char (c : ascii) : ascii :=
  let n := nat_of_ascii c in
  if (65 <=? n)%nat && (n <=? 90)%nat then ascii_of_nat (n + 32) else c.

(** [s.lower()]. *)
Fixpoint lower (s : string) : string :=
  match s with
  | EmptyString => EmptyString
  | String c s' => String (lower_char c) (lower s')
  end.

(** The characters [str.split()] treats as separators. *)
Definition is_whitespace (c : ascii) : bool :=
  let n := nat_of_ascii c in
  ((9 <=? n)%nat && (n <=? 13)%nat) || ((28 <=? n)%nat && (n <=? 32)%nat).

(** [s.split()]: maximal runs of non-whitespace characters, in order.
    [cur] holds the characters of the run being read, reversed. *)
Fixpoint split_go (cur : list ascii) (s : string) : list string :=
  match s with
  | EmptyString =>
      match cur with
      | [] => []
      | _ => [string_of_list_ascii (rev cur)]
      end
  | String c s' =>
      if is_whitespace c then
        match cur with
        | [] => split_go [] s'
        | _ => string_of_list_ascii (rev cur) :: split_go [] s'
        end
      else split_go (c :: cur) s'
  end.

Definition split (s : string) : list string := split_go [] s.

(** [hay.startswith(needle)]. *)
Fixpoint startswith (needle hay : string) : bool :=
  match needle, hay with
  | EmptyString, _ => true
  | String _ _, EmptyString => false
  | String a n', String b h' => Ascii.eqb a b && startswith n' h'
  end.

(** [needle in hay] on strings: substring test. *)
Fixpoint contains (needle hay : string) : bool :=
  startswith needle hay ||
  match hay with
  | EmptyString => false
  | String _ h' => contains needle h'
  end.

(** [x in xs] on a list of strings. *)
Definition mem (x : string) (xs : list string) : bool :=
  existsb (String.eqb x) xs.

(** [s[:n]]. *)
Definition slice_to (n : nat) (s : string) : string := substring 0 n s.

(** [sep.join(parts)]. *)
Fixpoint join (sep : string) (parts : list string) : string :=
  match parts with
  | [] => ""
  | [p] => p
  | p :: ps => p ++ sep ++ join sep ps
  end.

(** [max(xs, key=key)] on a non-empty sequence [x :: xs]: the first
    element whose key is maximal ([best] is replaced only by a strictly
    greater key). *)
Fixpoint max_by {A} (key : A -> Q) (best : A) (xs : list A) : A :=
  match xs with
  | [] => best
  | x :: xs' =>
      match (key best ?= key x)%Q with
      | Lt => max_by key x xs'
      | _ => max_by key best xs'
      end
  end.

(** [max(xs, default=d)] on numbers. *)
Definition max_default (xs : list Q) (d : Q) : Q :=
  match xs with
  | [] => d
  | x :: xs' => max_by (fun q => q) x xs'
  end.

(** [min(a, b)]: [b] only when it is strictly smaller. *)
Definition min2 (a b : Q) : Q :=
  match (b ?= a)%Q with
  | Lt => b
  | _ => a
  end.

(** [sum(xs)] on numbers. *)
Definition sum (xs : list Q) : Q := fold_left Qplus xs 0%Q.

(** [a > b] and [a == b] on numbers. *)
Definition gt (a b : Q) : bool :=
  match (a ?= b)%Q with Gt => true | _ => false end.

Definition num_eq (a b : Q) : bool := Qeq_bool a b.

(** [xs[start:]] for an integer [start]: a negative start counts from the
    end of the list, and a start outside the list is clipped. *)
Definition slice_from {A} (start : Z) (xs : list A) : list A :=
  let n := Z.of_nat (length xs) in
  let i := if (start <? 0)%Z then Z.max 0 (n + start) else Z.min start n in
  drop (Z.to_nat i) xs.

End Py.

(** ** Naive [datetime] values *)

Module DateTime.

(** The fields are binary naturals: a microsecond count reaches 999999. *)
Record t := mk {
  year : N; month : N; day : N;
  hour : N; minute : N; second : N; microsecond : N
}.

Definition is_leap (y : N) : bool :=
  ((y mod 4 =? 0) && negb (y mod 100 =? 0) || (y mod 400 =? 0))%N.

Definition days_in_month (y m : N) : N :=
  match m with
  | 2 => if is_leap y then 29 else 28
  | 4 | 6 | 9 | 11 => 30
  | _ => 31
  end%N.

(** The range checks of the [datetime] constructor. *)
Definition valid (d : t) : bool :=
  ((1 <=? year d) && (year d <=? 9999) &&
   (1 <=? month d) && (month d <=? 12) &&
   (1 <=? day d) && (day d <=? days_in_month (year d) (month d)) &&
   (hour d <? 24) && (minute d <? 60) && (second d <? 60) &&
   (microsecond d <? 1000000))%N.

Definition fields (d : t) : list N :=
  [year d; month d; day d; hour d; minute d; second d; microsecond d].

(** Lexicographic comparison of field lists: the order of [datetime]. *)
Fixpoint lex_compare (a b : list N) : comparison :=
  match a, b with
  | [], [] => Eq
  | [], _ :: _ => Lt
  | _ :: _, [] => Gt
  | x :: a', y :: b' =>
      match (x ?= y)%N with
      | Eq => lex_compare a' b'
      | c => c
      end
  end.

Definition compare (a b : t) : comparison := lex_compare (fields a) (fields b).

Definition ltb (a b : t) : bool :=
  match compare a b with Lt => true | _ => false end.

Definition eqb (a b : t) : bool :=
  match compare a b with Eq => true | _ => false end.

(** Decimal digits. *)
Definition digit_char (d : N) : ascii := ascii_of_N (48 + d).

Definition digit_val (c : ascii) : option N :=
  let n := N_of_ascii c in
  if ((48 <=? n) && (n <=? 57))%N then Some (n - 48)%N else None.

(** ["%0wd" % n] for a number of at most [w] digits. *)
Fixpoint zpad (w : nat) (n : N) : string :=
  match w with
  | O => ""
  | S w' => String (digit_char ((n / 10 ^ N.of_nat w') mod 10)) (zpad w' n)
  end.

(** [d.isoformat()]: [YYYY-MM-DDTHH:MM:SS], followed by [.ffffff] when the
    microsecond field is not zero. *)
Definition isoformat (d : t) : string :=
  zpad 4 (year d) ++ "-" ++ zpad 2 (month d) ++ "-" ++ zpad 2 (day d) ++
  "T" ++ zpad 2 (hour d) ++ ":" ++ zpad 2 (minute d) ++ ":" ++
  zpad 2 (second d) ++
  (if (microsecond d =? 0)%N then "" else "." ++ zpad 6 (microsecond d)).

(** Read exactly [w] decimal digits. *)
Fixpoint read_digits (w : nat) (acc : N) (s : string) : option (N * string) :=
  match w with
  | O => Some (acc, s)
  | S w' =>
      match s with
      | EmptyString => None
      | String c s' => d ← digit_val c; read_digits w' (10 * acc + d)%N s'
      end
  end.

Definition expect (c : ascii) (s : string) : option string :=
  match s with
  | String c' s' => if Ascii.eqb c c' then Some s' else None
  | EmptyString => None
  end.

(** The fraction after the seconds: absent, [.fff] or [.ffffff]. *)
Definition parse_fraction (s : string) : option N :=
  match s with
  | EmptyString => Some 0%N
  | String c s' =>
      if Ascii.eqb c "." then
        if (String.length s' =? 3)%nat then
          '(n, _) ← read_digits 3 0 s'; Some (n * 1000)%N
        else if (String.length s' =? 6)%nat then
          '(n, _) ← read_digits 6 0 s'; Some n
        else None
      else None
  end.

(** The time part [HH[:MM[:SS[.fff[fff]]]]]. *)
Definition parse_time (s : string) : option (N * N * N * N) :=
  '(h, s) ← read_digits 2 0 s;
  match s with
  | EmptyString => Some (h, 0, 0, 0)%N
  | _ =>
      s ← expect ":" s;
      '(mi, s) ← read_digits 2 0 s;
      match s with
      | EmptyString => Some (h, mi, 0, 0)%N
      | _ =>
          s ← expect ":" s;
          '(se, s) ← read_digits 2 0 s;
          us ← parse_fraction s;
          Some (h, mi, se, us)
      end
  end.

(** What follows the date: nothing, a lone separator, or one separator
    character (any character) and the time part. *)
Definition parse_after_date (s : string) : option (N * N * N * N) :=
  match s with
  | EmptyString => Some (0, 0, 0, 0)%N
  | String _ EmptyString => Some (0, 0, 0, 0)%N
  | String _ tstr => parse_time tstr
  end.

(** [datetime.fromisoformat(s)] for strings that denote a naive
    datetime: a date [YYYY-MM-DD], then optionally one separator
    character and a time.  [None] stands for [ValueError]. *)
Definition fromisoformat (s : string) : option t :=
  '(y, s) ← read_digits 4 0 s;
  s ← expect "-" s;
  '(mo, s) ← read_digits 2 0 s;
  s ← expect "-" s;
  '(d, s) ← read_digits 2 0 s;
  '(h, mi, se, us) ← parse_after_date s;
  let r := mk y mo d h mi se us in
  if valid r then Some r else None.

End DateTime.

(** ** Data model *)

Module Thought.

Record t := mk {
  content : string;
  timestamp : DateTime.t;
  thought_type : string;
  confidence : Q;
  emotional_valence : Q
}.

(** Equality generated by [@dataclass]: field by field, numbers compared
    by value. *)
Definition eqb (a b : t) : bool :=
  String.eqb (content a) (content b) &&
  DateTime.eqb (timestamp a) (timestamp b) &&
  String.eqb (thought_type a) (thought_type b) &&
  Py.num_eq (confidence a) (confidence b) &&
  Py.num_eq (emotional_valence a) (emotional_valence b).

End Thought.

Module Memory.

Record t := mk {
  content : string;
  timestamp : DateTime.t;
  memory_type : string;
  importance : Q;
  emotional_impact : Q;
  related_thoughts : list string
}.

End Memory.

(** The perception [dict] built by [CoreMind.perceive]; [None] is an absent
    key. *)
Record Perception := mkPerception {
  raw_input : option string;
  detected_emotion : option string;
  key_concepts : option (list string);
  question_type : option string;
  complexity : option Q
}.

(** ** Exceptions, world and the monad of stateful methods *)

Inductive exn :=
| KeyError (key : string)
| ValueError (msg : string)
| OSError (msg : string)
| RuntimeError (msg : string).

Inductive result (A : Type) :=
| Ok (a : A)
| Raise (e : exn).
Arguments Ok {A} a.
Arguments Raise {A} e.

(** One record of the persisted JSON document: [asdict(memory)] with the
    timestamp replaced by its ISO-8601 text. *)
Record MemoryDict := mkMemoryDict {
  d_content : string;
  d_timestamp : string;
  d_memory_type : string;
  d_importance : Q;
  d_emotional_impact : Q;
  d_related_thoughts : list string
}.

(** The content of a file: a JSON array of memory records, or anything on
    which [json.load] or the decoding of a record raises. *)
Inductive file :=
| Garbage
| Document (records : list MemoryDict).

(** How a write to a path fails: [open] raises and the file is untouched,
    or the file is opened (hence truncated) and [json.dump] raises. *)
Inductive write_fault :=
| OpenFails
| DumpFails.

Record World := mkWorld {
  fs : gmap string file;
  faults : gmap string write_fault;
  wall : nat -> DateTime.t;
  ticks : nat
}.

Module MemoryState.
Record t := mk {
  memory_file : string;
  memories : list Memory.t
}.
End MemoryState.

Module DialogueState.
Record t := mk {
  thoughts : list Thought.t;
  personality_traits : gmap string Q
}.
End DialogueState.

(** The mutable state reachable from an agent: its memory system, its
    dialogue engine and the outside world. *)
Record State := mkState {
  memory : MemoryState.t;
  dialogue : DialogueState.t;
  world : World
}.

Definition M (A : Type) : Type := State -> result A * State.

Definition ret {A} (a : A) : M A := fun s => (Ok a, s).

Definition raise {A} (e : exn) : M A := fun s => (Raise e, s).

Definition bind {A B} (m : M A) (k : A -> M B) : M B :=
  fun s =>
    match m s with
    | (Ok a, s') => k a s'
    | (Raise e, s') => (Raise e, s')
    end.

(** [try: body except Exception: handler]: the state changes made by
    [body] before it raised are kept. *)
Definition try_except {A} (body : M A) (handler : exn -> M A) : M A :=
  fun s =>
    match body s with
    | (Ok a, s') => (Ok a, s')
    | (Raise e, s') => handler e s'
    end.

Definition get : M State := fun s => (Ok s, s).

Definition put (s : State) : M unit := fun _ => (Ok tt, s).

Definition lift {A} (r : result A) : M A := fun s => (r, s).

Notation "'let*' x ':=' m 'in' k" := (bind m (fun x => k))
  (at level 10, x name, m at level 100, k at level 200).
Notation "'do' m 'then' k" := (bind m (fun _ => k))
  (at level 10, m at level 100, k at level 200).

(** [d[k]] on a dict with an optional key. *)
Definition getitem {A} (key : string) (v : option A) : M A :=
  match v with
  | Some a => ret a
  | None => raise (KeyError key)
  end.

(** [datetime.now()]: the next reading of the wall clock. *)
Definition now : M DateTime.t :=
  fun s =>
    let w := world s in
    (Ok (wall w (ticks w)),
     mkState (memory s) (dialogue s)
       (mkWorld (fs w) (faults w) (wall w) (S (ticks w)))).

Definition set_memories (ms : list Memory.t) : M unit :=
  fun s =>
    (Ok tt,
     mkState (MemoryState.mk (MemoryState.memory_file (memory s)) ms)
       (dialogue s) (world s)).

Definition set_thoughts (ts : list Thought.t) : M unit :=
  fun s =>
    (Ok tt,
     mkState (memory s)
       (DialogueState.mk ts (DialogueState.personality_traits (dialogue s)))
       (world s)).

Definition set_file (path : string) (f : file) : M unit :=
  fun s =>
    let w := world s in
    (Ok tt,
     mkState (memory s) (dialogue s)
       (mkWorld (<[path := f]> (fs w)) (faults w) (wall w) (ticks w))).

(** ** CoreMind *)

Module CoreMind.

Definition positive_words : list string :=
  ["happy"; "joy"; "love"; "good"; "excellent"; "wonderful"].

Definition negative_words : list string :=
  ["sad"; "angry"; "hate"; "bad"; "terrible"; "awful"].

(** [sum(1 for word in words if word in text_lower)]. *)
Definition count_in (words : list string) (text_lower : string) : nat :=
  list_sum (map (fun _ => 1%nat)
              (List.filter (fun word => Py.contains word text_lower) words)).

Definition _analyze_emotion (text : string) : string :=
  let text_lower := Py.lower text in
  let positive_count := count_in positive_words text_lower in
  let negative_count := count_in negative_words text_lower in
  if (negative_count <? positive_count)%nat then "positive"
  else if (positive_count <? negative_count)%nat then "negative"
  else "neutral".

Definition _extract_concepts (text : string) : list string :=
  let words := Py.split (Py.lower text) in
  let important_words :=
    List.filter (fun word => (4 <? String.length word)%nat) words in
  take 5 important_words.

Definition _classify_question (text : string) : string :=
  let text_lower := Py.lower text in
  if Py.contains "what" text_lower || Py.contains "how" text_lower
  then "inquiry"
  else if Py.contains "why" text_lower then "philosophical"
  else if Py.contains "?" text then "question"
  else "statement".

Definition perceive (stimulus : string) : result Perception :=
  Ok {| raw_input := Some stimulus;
        detected_emotion := Some (_analyze_emotion stimulus);
        key_concepts := Some (_extract_concepts stimulus);
        question_type := Some (_classify_question stimulus);
        complexity :=
          Some (inject_Z (Z.of_nat (length (Py.split stimulus))) / 10)%Q |}.

Definition placeholder : string :=
  "I'm still processing that... give me a moment to think.".

Definition respond (thoughts : list Thought.t) : result string :=
  match thoughts with
  | [] => Ok placeholder
  | t0 :: rest =>
      let main_thought := Py.max_by Thought.confidence t0 rest in
      let response_parts :=
        ["From my perspective, " ++ Py.lower (Thought.content main_thought)] in
      let supporting_thoughts :=
        List.filter
          (fun t => Py.gt (Thought.confidence t) 0.7 &&
                    negb (Thought.eqb t main_thought))
          thoughts in
      let response_parts :=
        match supporting_thoughts with
        | [] => response_parts
        | s :: _ =>
            (response_parts ++
             [("I also consider that " ++
               Py.lower (Thought.content s))%string])%list
        end in
      Ok (Py.join " " response_parts)
  end.

(** The two methods the orchestrator calls on its [mind] attribute. *)
Record interface := mkInterface {
  i_perceive : string -> result Perception;
  i_respond : list Thought.t -> result string
}.

Definition __init__ : interface := mkInterface perceive respond.

End CoreMind.

(** ** MemorySystem *)

Module MemorySystem.

Import MemoryState.

(** [asdict(memory)] with [timestamp] set to [memory.timestamp.isoformat()]. *)
Definition to_dict (m : Memory.t) : MemoryDict :=
  {| d_content := Memory.content m;
     d_timestamp := DateTime.isoformat (Memory.timestamp m);
     d_memory_type := Memory.memory_type m;
     d_importance := Memory.importance m;
     d_emotional_impact := Memory.emotional_impact m;
     d_related_thoughts := Memory.related_thoughts m |}.

(** [Memory(content=m['content'], timestamp=datetime.fromisoformat(...), ...)];
    [None] when [fromisoformat] raises. *)
Definition of_dict (m : MemoryDict) : option Memory.t :=
  ts ← DateTime.fromisoformat (d_timestamp m);
  Some (Memory.mk (d_content m) ts (d_memory_type m) (d_importance m)
          (d_emotional_impact m) (d_related_thoughts m)).

(** The list comprehension either decodes every record or raises before
    [self.memories] is assigned. *)
Definition _load_memories : M unit :=
  let* s := get in
  match fs (world s) !! memory_file (memory s) with
  | None => ret tt
  | Some f =>
      try_except
        (match f with
         | Garbage => raise (ValueError "could not decode the document")
         | Document data =>
             match mapM of_dict data with
             | Some ms => set_memories ms
             | None => raise (ValueError "Invalid isoformat string")
             end
         end)
        (fun _ => ret tt)
  end.

(** [MemorySystem(memory_file)], bound as the memory system of the state. *)
Definition __init__ (path : string) : M unit :=
  let* s := get in
  do put (mkState (mk path []) (dialogue s) (world s)) then
  _load_memories.

Definition _save_memories : M unit :=
  let* s := get in
  try_except
    (let memory_data := map to_dict (memories (memory s)) in
     let path := memory_file (memory s) in
     match faults (world s) !! path with
     | Some OpenFails => raise (OSError "cannot open the memory file")
     | Some DumpFails =>
         do set_file path Garbage then
         raise (OSError "cannot write the memory file")
     | None => set_file path (Document memory_data)
     end)
    (fun _ => ret tt).

(** [any(concept in memory_words for concept in key_concepts)]. *)
Definition relevant (concepts : list string) (m : Memory.t) : bool :=
  let memory_words := Py.split (Py.lower (Memory.content m)) in
  existsb (fun concept => Py.mem concept memory_words) concepts.

(** [(a.importance, a.timestamp) < (b.importance, b.timestamp)]. *)
Definition key_ltb (a b : Memory.t) : bool :=
  match (Memory.importance a ?= Memory.importance b)%Q with
  | Lt => true
  | Gt => false
  | Eq => DateTime.ltb (Memory.timestamp a) (Memory.timestamp b)
  end.

(** [list.sort(key=..., reverse=True)]: a stable sort into descending
    order; an element stays ahead of the later elements that do not
    exceed it. *)
Fixpoint insert_desc (x : Memory.t) (l : list Memory.t) : list Memory.t :=
  match l with
  | [] => [x]
  | y :: l' => if key_ltb x y then y :: insert_desc x l' else x :: y :: l'
  end.

Definition sort_desc (l : list Memory.t) : list Memory.t :=
  foldr insert_desc [] l.

Definition recall_from (perception : Perception) (ms : list Memory.t)
  : list Memory.t :=
  let concepts := default [] (key_concepts perception) in
  let relevant_memories := List.filter (relevant concepts) ms in
  take 3 (sort_desc relevant_memories).

Definition recall (perception : Perception) : M (list Memory.t) :=
  let* s := get in
  ret (recall_from perception (memories (memory s))).

Definition _calculate_importance (perception : Perception)
    (thoughts : list Thought.t) : Q :=
  let complexity := default 0%Q (complexity perception) in
  let max_confidence :=
    Py.max_default (map Thought.confidence thoughts) 0 in
  let emotional_intensity :=
    Py.max_default (map (fun t => Qabs (Thought.emotional_valence t)) thoughts) 0 in
  let importance :=
    (complexity * 0.3 + max_confidence * 0.4 + emotional_intensity * 0.3)%Q in
  Py.min2 importance 1.0.

Definition _calculate_emotional_impact (thoughts : list Thought.t) : Q :=
  match thoughts with
  | [] => 0.0%Q
  | _ =>
      let emotional_values := map Thought.emotional_valence thoughts in
      (Py.sum emotional_values /
       inject_Z (Z.of_nat (length emotional_values)))%Q
  end.

Definition store (perception : Perception) (thoughts : list Thought.t)
    (response : string) : M unit :=
  let* raw := getitem "raw_input" (raw_input perception) in
  let* ts := now in
  let* s := get in
  let stored := memories (memory s) in
  let memory :=
    Memory.mk ("Input: " ++ raw ++ " | Response: " ++ response) ts
      "episodic"
      (_calculate_importance perception thoughts)
      (_calculate_emotional_impact thoughts)
      (map Thought.content (take 2 thoughts)) in
  do set_memories (stored ++ [memory])%list then
  _save_memories.

End MemorySystem.

(** ** InternalDialogue *)

Module InternalDialogue.

Import DialogueState.

Definition initial_traits : gmap string Q :=
  <["curiosity" := 0.8%Q]>
    (<["empathy" := 0.7%Q]>
       (<["skepticism" := 0.6%Q]>
          (<["creativity" := 0.5%Q]>
             (<["introspection" := 0.9%Q]> ∅)))).

(** [InternalDialogue()]. *)
Definition __init__ : DialogueState.t := mk [] initial_traits.

Definition _generate_initial_reaction (perception : Perception)
  : M Thought.t :=
  let question_type := default "statement" (question_type perception) in
  let '(content, confidence) :=
    if String.eqb question_type "philosophical" then
      ("This touches on something fundamental that I should consider carefully",
       0.8%Q)
    else if String.eqb question_type "inquiry" then
      ("I need to access what I know about this topic", 0.9%Q)
    else
      ("Let me process what this person is communicating to me", 0.7%Q) in
  let* ts := now in
  ret (Thought.mk content ts "observation" confidence 0.1).

Definition _reflect_on_memories (memories : list Memory.t)
    (perception : Perception) : M Thought.t :=
  match memories with
  | [] =>
      let* ts := now in
      ret (Thought.mk "I don't have much prior experience with this topic"
              ts "reflection" 0.6 (-0.1))
  | most_relevant :: _ =>
      let content :=
        "This reminds me of previous experiences, particularly around " ++
        Py.slice_to 50 (Memory.content most_relevant) ++ "..." in
      let* ts := now in
      ret (Thought.mk content ts "reflection" 0.8
              (Memory.emotional_impact most_relevant * 0.5)%Q)
  end.

Definition _meta_reflection (perception : Perception)
    (existing_thoughts : list Thought.t) : M Thought.t :=
  let content :=
    "I notice I'm approaching this in a particular way - let me consider if there are other perspectives" in
  let* ts := now in
  ret (Thought.mk content ts "meta-reflection" 0.7 0.2).

Definition _generate_curious_thought (perception : Perception)
  : M Thought.t :=
  let concepts := default [] (key_concepts perception) in
  let content :=
    match concepts with
    | c0 :: _ =>
        "I wonder about the deeper implications of " ++ c0 ++ " in this context"
    | [] => "There might be layers to this that I haven't considered yet"
    end in
  let* ts := now in
  ret (Thought.mk content ts "question" 0.6 0.3).

(** [self.personality_traits[name]]. *)
Definition trait (name : string) : M Q :=
  let* s := get in
  getitem name (personality_traits (dialogue s) !! name).

(** The [personality] argument has no annotation in the source; any value
    can be passed. *)
Definition contemplate {P : Type} (perception : Perception)
    (memories : list Memory.t) (personality : P) : M (list Thought.t) :=
  let* initial_thought := _generate_initial_reaction perception in
  let thoughts := [initial_thought] in
  let* thoughts :=
    match memories with
    | [] => ret thoughts
    | _ =>
        let* memory_thought := _reflect_on_memories memories perception in
        ret (thoughts ++ [memory_thought])%list
    end in
  let* introspection := trait "introspection" in
  let* thoughts :=
    (if Py.gt introspection 0.7 then
       let* meta_thought := _meta_reflection perception thoughts in
       ret (thoughts ++ [meta_thought])%list
     else ret thoughts) in
  let* curiosity := trait "curiosity" in
  let* thoughts :=
    (if Py.gt curiosity 0.6 then
       let* curious_thought := _generate_curious_thought perception in
       ret (thoughts ++ [curious_thought])%list
     else ret thoughts) in
  let* s := get in
  do set_thoughts (DialogueState.thoughts (dialogue s) ++ thoughts)%list then
  ret thoughts.

(** [self.thoughts[-limit:] if self.thoughts else []]. *)
Definition get_recent_thoughts (limit : Z) : M (list Thought.t) :=
  let* s := get in
  match DialogueState.thoughts (dialogue s) with
  | [] => ret []
  | ths => ret (Py.slice_from (- limit) ths)
  end.

End InternalDialogue.

(** ** SentimentAgent *)

Module SentimentAgent.

Record t := mk {
  name : string;
  mind : CoreMind.interface;
  personality : gmap string bool
}.

Definition initial_personality : gmap string bool :=
  <["introspective" := true]>
    (<["curious" := true]>
       (<["empathetic" := true]>
          (<["analytical" := true]> ∅))).

(** [memory_file or f"{name.lower()}_memory.json"]: [None] and the empty
    string both select the default path. *)
Definition memory_path (name : string) (memory_file : option string)
  : string :=
  match memory_file with
  | Some (String c p) => String c p
  | _ => Py.lower name ++ "_memory.json"
  end.

(** [SentimentAgent(name, memory_file)] in world [w]: the agent object and
    the state it owns. *)
Definition __init__ (name : string) (memory_file : option string)
    (w : World) : t * State :=
  let s0 :=
    mkState (MemoryState.mk (memory_path name memory_file) [])
      InternalDialogue.__init__ w in
  (mk name CoreMind.__init__ initial_personality,
   snd (MemorySystem._load_memories s0)).

Definition apology : string :=
  "I'm having trouble processing that right now. Could you rephrase it?".

(** The body of the [try] block of [think]. *)
Definition think_body (self : t) (stimulus : string) : M string :=
  let* perception := lift (CoreMind.i_perceive (mind self) stimulus) in
  let* relevant_memories := MemorySystem.recall perception in
  let* thoughts :=
    InternalDialogue.contemplate perception relevant_memories
      (personality self) in
  let* response := lift (CoreMind.i_respond (mind self) thoughts) in
  do MemorySystem.store perception thoughts response then
  ret response.

Definition think (self : t) (stimulus : string) : M string :=
  try_except (think_body self stimulus) (fun _ => ret apology).

Definition self_reflect (self : t) : M string :=
  think self
    "How am I developing as a thinking entity? What patterns do I notice in my own thoughts?".

(** The dict returned by [get_personality_summary], one field per key. *)
Record summary := mkSummary {
  summary_name : string;
  summary_personality_traits : gmap string bool;
  summary_dialogue_traits : gmap string Q;
  total_memories : nat;
  recent_thoughts : nat;
  summary_memory_file : string
}.

(** [get_recent_thoughts()] is called with its default limit of 5. *)
Definition get_personality_summary (self : t) : M summary :=
  let* s := get in
  let* recent := InternalDialogue.get_recent_thoughts 5 in
  ret (mkSummary (name self) (personality self)
         (DialogueState.personality_traits (dialogue s))
         (length (MemoryState.memories (memory s)))
         (length recent)
         (MemoryState.memory_file (memory s))).

End SentimentAgent.

(** The conversation loop of [main]:
    [for question in questions: response = await agent.think(question)];
    the responses that the loop prints are collected. *)
Fixpoint converse (agent : SentimentAgent.t) (questions : list string)
  : M (list string) :=
  match questions with
  | [] => ret []
  | question :: rest =>
      let* response := SentimentAgent.think agent question in
      let* responses := converse agent rest in
      ret (response :: responses)
  end.

(** ** Frame conditions on runs of the monad *)

(** Every run of [m] relates the state it starts from to the state it ends
    in by [I], whether it returns or raises. *)
Definition respects {A} (I : State -> State -> Prop) (m : M A) : Prop :=
  forall s r s', m s = (r, s') -> I s s'.

(** The memory system and the file system are untouched. *)
Definition same_store (s s' : State) : Prop :=
  memory s' = memory s /\
  fs (world s') = fs (world s) /\
  faults (world s') = faults (world s).

(** The in-memory sequence only grows at its end. *)
Definition grows (s s' : State) : Prop :=
  exists tail,
    MemoryState.memories (memory s') =
    (MemoryState.memories (memory s) ++ tail)%list.

(** ** Vocabulary of the specification *)

Module Spec.

(** [w] occurs somewhere in [text]. *)
Definition occurs (w text : string) : Prop :=
  exists pre post, text = pre ++ w ++ post.

(** The number of words of [lexicon] that occur in [text], letter case
    ignored. *)
Definition lexicon_hits (lexicon : list string) (text : string) : nat :=
  length (List.filter (fun w => Py.contains w (Py.lower text)) lexicon).

(** [m] is the first thought of [ths] whose confidence is maximal. *)
Definition first_of_max_confidence (ths : list Thought.t) (m : Thought.t)
  : Prop :=
  exists pre post, ths = (pre ++ m :: post)%list /\
    (forall x, In x pre -> (Thought.confidence x < Thought.confidence m)%Q) /\
    (forall x, In x post -> (Thought.confidence x <= Thought.confidence m)%Q).

(** [t] can support the main thought: its confidence exceeds 0.7 and it
    is not the main thought (thoughts are compared as dataclass values). *)
Definition supporting (main t : Thought.t) : Prop :=
  (0.7 < Thought.confidence t)%Q /\ Thought.eqb t main = false.

(** [s] is the first thought of [ths] that can support [main]. *)
Definition first_supporting (ths : list Thought.t) (main s : Thought.t)
  : Prop :=
  exists pre post, ths = (pre ++ s :: post)%list /\ supporting main s /\
    forall x, In x pre -> ~ supporting main x.

Definition opening_clause (t : Thought.t) : string :=
  "From my perspective, " ++ Py.lower (Thought.content t).

Definition second_clause (t : Thought.t) : string :=
  "I also consider that " ++ Py.lower (Thought.content t).

(** The content of [m], lower-cased and split on whitespace, shares a
    token with the key concepts of [perception]. *)
Definition shares_token (perception : Perception) (m : Memory.t) : Prop :=
  exists c, In c (default [] (key_concepts perception)) /\
            In c (Py.split (Py.lower (Memory.content m))).

(** [a] may precede [b] in a list sorted by descending
    (importance, timestamp): [a] is more important, or as important and
    not earlier than [b]. *)
Definition ranks_before (a b : Memory.t) : Prop :=
  (Memory.importance b < Memory.importance a)%Q \/
  ((Memory.importance a == Memory.importance b)%Q /\
   DateTime.ltb (Memory.timestamp a) (Memory.timestamp b) = false).

(** A thought without its timestamp: content, kind, confidence and
    emotional valence. *)
Definition untimed (t : Thought.t) : string * string * Q * Q :=
  (Thought.content t, Thought.thought_type t, Thought.confidence t,
   Thought.emotional_valence t).

(** The outcome of [contemplate] with the timestamps erased. *)
Definition untimed_outcome (r : result (list Thought.t))
  : result (list (string * string * Q * Q)) :=
  match r with
  | Ok ths => Ok (map untimed ths)
  | Raise e => Raise e
  end.

(** The invariant of the data model on a memory. *)
Definition related_bounded (m : Memory.t) : Prop :=
  (length (Memory.related_thoughts m) <= 2)%nat.

(** The same bound on a persisted record. *)
Definition record_bounded (d : MemoryDict) : Prop :=
  (length (d_related_thoughts d) <= 2)%nat.

(** Every memory held by the store and every record of every persisted
    document obeys the bound. *)
Definition bounded_state (s : State) : Prop :=
  Forall related_bounded (MemoryState.memories (memory s)) /\
  forall path data,
    fs (world s) !! path = Some (Document data) ->
    Forall record_bounded data.

(** Every character of [s] is whitespace for [str.split()]. *)
Definition blank (s : string) : Prop :=
  Forall (fun c => Py.is_whitespace c = true) (list_ascii_of_string s).

(** Both traits that gate the steps of [contemplate] are in the profile. *)
Definition gates_present (s : State) : Prop :=
  is_Some (DialogueState.personality_traits (dialogue s) !! "introspection") /\
  is_Some (DialogueState.personality_traits (dialogue s) !! "curiosity").

(** Everything but the clock reading and the history of thoughts is as
    before: memory system, files, write faults, wall clock and traits. *)
Definition stable (s s' : State) : Prop :=
  memory s' = memory s /\
  fs (world s') = fs (world s) /\
  faults (world s') = faults (world s) /\
  wall (world s') = wall (world s) /\
  DialogueState.personality_traits (dialogue s') =
  DialogueState.personality_traits (dialogue s).

(** The memories that a document on disk decodes to; none when the file is
    absent or cannot be decoded. *)
Definition decoded (files : gmap string file) (path : string)
  : list Memory.t :=
  match files !! path with
  | Some (Document data) => default [] (mapM MemorySystem.of_dict data)
  | _ => []
  end.

(** The ranges of the data model. *)
Definition thought_in_range (t : Thought.t) : Prop :=
  (0 <= Thought.confidence t)%Q /\ (Thought.confidence t <= 1)%Q /\
  (-1 <= Thought.emotional_valence t)%Q /\ (Thought.emotional_valence t <= 1)%Q.

Definition memory_in_range (m : Memory.t) : Prop :=
  (0 <= Memory.importance m)%Q /\ (Memory.importance m <= 1)%Q /\
  (-1 <= Memory.emotional_impact m)%Q /\ (Memory.emotional_impact m <= 1)%Q.

Definition in_range_state (s : State) : Prop :=
  Forall memory_in_range (MemoryState.memories (memory s)) /\
  Forall thought_in_range (DialogueState.thoughts (dialogue s)).

(** The wall clock only shows valid datetimes. *)
Definition clock_valid (w : World) : Prop :=
  forall n, DateTime.valid (wall w n) = true.

(** The memory file decodes to exactly the memories held, every held
    timestamp is a valid datetime, the clock is valid and writes to the
    memory file do not fail. *)
Definition durable (s : State) : Prop :=
  MemoryState.memories (memory s) =
    decoded (fs (world s)) (MemoryState.memory_file (memory s)) /\
  Forall (fun m => DateTime.valid (Memory.timestamp m) = true)
    (MemoryState.memories (memory s)) /\
  clock_valid (world s) /\
  faults (world s) !! MemoryState.memory_file (memory s) = None.

End Spec.

(** ** Concrete inputs used by the examples *)

Module Examples.

Definition midnight : DateTime.t := DateTime.mk 2024 1 1 0 0 0 0.

Definition clock (n : nat) : DateTime.t :=
  DateTime.mk 2024 1 1 0 0 (N.of_nat n) 0.

Definition empty_world : World := mkWorld ∅ ∅ clock 0.

Definition no_perception : Perception := mkPerception None None None None None.

(** A mind whose perception stage raises. *)
Definition broken_mind : CoreMind.interface :=
  CoreMind.mkInterface
    (fun _ => Raise (RuntimeError "perception failed"))
    CoreMind.respond.

Definition broken_agent : SentimentAgent.t :=
  SentimentAgent.mk "ARIA" broken_mind SentimentAgent.initial_personality.

(** A state holding one memory. *)
Definition old_memory : Memory.t :=
  Memory.mk "Input: hello | Response: hi" midnight "episodic" 0.5 0.1
    ["first"; "second"].

Definition one_memory_state : State :=
  mkState (MemoryState.mk "aria_memory.json" [old_memory])
    InternalDialogue.__init__ empty_world.

(** The same state when the memory file cannot be opened for writing. *)
Definition read_only_state : State :=
  mkState (MemoryState.mk "aria_memory.json" [old_memory])
    InternalDialogue.__init__
    (mkWorld ∅ (<["aria_memory.json" := OpenFails]> ∅) clock 0).

(** A persisted record with three related thoughts. *)
Definition long_record : MemoryDict :=
  mkMemoryDict "Input: a | Response: b" "2024-01-01T00:00:00" "episodic"
    0.5 0.1 ["one"; "two"; "three"].

Definition world_with_long_record : World :=
  mkWorld (<["aria_memory.json" := Document [long_record]]> ∅) ∅ clock 0.

(** A thought whose confidence is negative. *)
Definition doubtful : Thought.t :=
  Thought.mk "hardly" midnight "observation" (-1) 0.

(** A world without files whose clock always shows the same valid time. *)
Definition frozen_world : World := mkWorld ∅ ∅ (fun _ => midnight) 0.

(** Four memories that all mention one key concept, and a perception of it. *)
Definition ranked_1 : Memory.t :=
  Memory.mk "Input: wonderful day" (clock 1) "episodic" 0.2 0 [].

Definition ranked : list Memory.t :=
  [ ranked_1;
    Memory.mk "Input: wonderful night" (clock 2) "episodic" 0.5 0 [];
    Memory.mk "Input: a wonderful week" (clock 0) "episodic" 0.9 0 [];
    Memory.mk "Input: wonderful year" (clock 3) "episodic" 1 0 [] ].

Definition wonderful : Perception :=
  mkPerception (Some "wonderful") None (Some ["wonderful"]) None None.


End Examples.

(** * Properties *)

(** ** Numbers *)

Lemma max_by_in {A} (key : A -> Q) (best : A) (xs : list A) :
  Py.max_by key best xs = best \/ In (Py.max_by key best xs) xs.
Proof.
  revert best. induction xs as [|x xs IH]; intros best; simpl.
  - now left.
  - destruct (key best ?= key x)%Q.
    + destruct (IH best) as [->|H]; [now left | right; now right].
    + destruct (IH x) as [->|H]; right; [now left | now right].
    + destruct (IH best) as [->|H]; [now left | right; now right].
Qed.

Lemma max_default_nonneg (xs : list Q) :
  Forall (fun q => (0 <= q)%Q) xs -> (0 <= Py.max_default xs 0)%Q.
Proof.
  intros H. destruct xs as [|x xs]; simpl.
  - apply Qle_refl.
  - rewrite List.Forall_forall in H.
    destruct (max_by_in (fun q => q) x xs) as [->|Hin].
    + apply H. now left.
    + apply H. now right.
Qed.

Lemma min2_le_r (a b : Q) : (Py.min2 a b <= b)%Q.
Proof.
  unfold Py.min2. destruct (b ?= a)%Q eqn:E.
  - apply Qeq_alt in E. rewrite E. apply Qle_refl.
  - apply Qle_refl.
  - apply Qlt_le_weak. now apply Qgt_alt in E.
Qed.

Lemma min2_ge (c a b : Q) : (c <= a)%Q -> (c <= b)%Q -> (c <= Py.min2 a b)%Q.
Proof. intros Ha Hb. unfold Py.min2. now destruct (b ?= a)%Q. Qed.

(** ** C1: the importance score *)

(** The cap of [_calculate_importance] holds for every input. *)
Lemma importance_le_1 (perception : Perception) (thoughts : list Thought.t) :
  (MemorySystem._calculate_importance perception thoughts <= 1)%Q.
Proof.
  unfold MemorySystem._calculate_importance.
  eapply Qle_trans; [apply min2_le_r|]. discriminate.
Qed.

(** C1, as stated, fails: one thought of negative confidence drives the
    importance of an interaction below zero, since the score is only capped
    from above. *)
Lemma importance_negative_counterexample :
  (MemorySystem._calculate_importance Examples.no_perception
     [Examples.doubtful] < 0)%Q.
Proof. reflexivity. Qed.

(** C1 (amended): when the complexity of the perception and the confidence
    of every thought are non-negative, the importance computed by [store]
    lies in [0, 1], whatever the magnitude of the inputs and the sign of the
    emotional valences. *)
Theorem importance_in_unit_interval
    (perception : Perception) (thoughts : list Thought.t)
    (Hcomplexity : (0 <= default 0 (complexity perception))%Q)
    (Hconfidence :
       Forall (fun t => (0 <= Thought.confidence t)%Q) thoughts) :
  (0 <= MemorySystem._calculate_importance perception thoughts)%Q /\
  (MemorySystem._calculate_importance perception thoughts <= 1)%Q.
Proof.
  split; [|apply importance_le_1].
  unfold MemorySystem._calculate_importance.
  apply min2_ge; [|discriminate].
  assert (Hc : (0 <= Py.max_default (map Thought.confidence thoughts) 0)%Q).
  { apply max_default_nonneg. now apply Forall_map. }
  assert (He : (0 <= Py.max_default
                  (map (fun t => Qabs (Thought.emotional_valence t)) thoughts) 0)%Q).
  { apply max_default_nonneg. apply Forall_map, List.Forall_forall.
    intros t _. apply Qabs_nonneg. }
  set (c := default 0%Q (complexity perception)) in *.
  set (m := Py.max_default (map Thought.confidence thoughts) 0) in *.
  set (e := Py.max_default _ 0) in He |- *.
  assert (H3 : (0 <= 0.3)%Q) by discriminate.
  assert (H4 : (0 <= 0.4)%Q) by discriminate.
  pose proof (Qmult_le_0_compat _ _ Hcomplexity H3).
  pose proof (Qmult_le_0_compat _ _ Hc H4).
  pose proof (Qmult_le_0_compat _ _ He H3).
  replace 0%Q with (0 + 0 + 0)%Q by reflexivity.
  repeat apply Qplus_le_compat; assumption.
Qed.

Lemma importance_in_unit_interval_witness :
  (0 <= MemorySystem._calculate_importance
          (mkPerception (Some "so much to say") None None None (Some 40))
          [Thought.mk "sure" Examples.midnight "observation" 0.9 (-7)])%Q /\
  (MemorySystem._calculate_importance
     (mkPerception (Some "so much to say") None None None (Some 40))
     [Thought.mk "sure" Examples.midnight "observation" 0.9 (-7)] <= 1)%Q.
Proof.
  apply importance_in_unit_interval.
  - simpl. discriminate.
  - repeat constructor. simpl. discriminate.
Defined.

(** ** Strings *)

Lemma startswith_app (needle hay : string) :
  Py.startswith needle hay = true <-> exists post, hay = needle ++ post.
Proof.
  revert hay. induction needle as [|a n IH]; intros hay; simpl.
  - split; [intros _; now exists hay | reflexivity].
  - destruct hay as [|b h].
    + split; [discriminate | intros [post H]; discriminate].
    + rewrite andb_true_iff, Ascii.eqb_eq, IH. split.
      * intros [-> [post ->]]. now exists post.
      * intros [post H]. injection H as -> ->. split; [reflexivity | now exists post].
Qed.

(** [Py.contains] decides occurrence as a substring. *)
Lemma contains_occurs (needle hay : string) :
  Py.contains needle hay = true <-> Spec.occurs needle hay.
Proof.
  unfold Spec.occurs. induction hay as [|b h IH].
  - simpl. rewrite orb_false_r, startswith_app. split.
    + intros [post H]. exists "", post. exact H.
    + intros [pre [post H]]. destruct pre; [now exists post | discriminate].
  - change (Py.contains needle (String b h))
      with (Py.startswith needle (String b h) || Py.contains needle h).
    rewrite orb_true_iff, startswith_app, IH. split.
    + intros [[post H] | [pre [post H]]].
      * exists "", post. exact H.
      * exists (String b pre), post. simpl. now rewrite H.
    + intros [pre [post H]]. destruct pre as [|c pre].
      * left. now exists post.
      * right. simpl in H. injection H as -> H. now exists pre, post.
Qed.

Lemma count_in_length (words : list string) (text_lower : string) :
  CoreMind.count_in words text_lower =
  length (List.filter (fun w => Py.contains w text_lower) words).
Proof.
  unfold CoreMind.count_in.
  induction (List.filter _ words) as [|w l IH]; simpl; [reflexivity | now rewrite IH].
Qed.

(** ** C9: emotion detection *)

Lemma analyze_emotion_cases (text : string) :
  let pos := Spec.lexicon_hits CoreMind.positive_words text in
  let neg := Spec.lexicon_hits CoreMind.negative_words text in
  (neg < pos /\ CoreMind._analyze_emotion text = "positive") \/
  (pos < neg /\ CoreMind._analyze_emotion text = "negative") \/
  (pos = neg /\ CoreMind._analyze_emotion text = "neutral").
Proof.
  intros pos neg. unfold CoreMind._analyze_emotion.
  rewrite !count_in_length. fold (Spec.lexicon_hits CoreMind.positive_words text).
  fold (Spec.lexicon_hits CoreMind.negative_words text). fold pos neg.
  destruct (Nat.ltb_spec neg pos) as [H|H]; [left; now split|].
  destruct (Nat.ltb_spec pos neg) as [H'|H']; [right; left; now split|].
  right; right. split; [lia | reflexivity].
Qed.

(** C9: the [detected_emotion] of a perception is "positive" exactly when
    more positive than negative lexicon words occur in the lower-cased
    text, "negative" exactly when more negative ones occur, and "neutral"
    exactly when the counts agree; "I love this wonderful day" has 2
    positive hits, no negative hit, and is perceived as positive. *)
Theorem detected_emotion_by_lexicon_hits (text : string) :
  let pos := Spec.lexicon_hits CoreMind.positive_words text in
  let neg := Spec.lexicon_hits CoreMind.negative_words text in
  (exists p, CoreMind.perceive text = Ok p /\
     (detected_emotion p = Some "positive" <-> neg < pos) /\
     (detected_emotion p = Some "negative" <-> pos < neg) /\
     (detected_emotion p = Some "neutral" <-> pos = neg)) /\
  (exists p, CoreMind.perceive "I love this wonderful day" = Ok p /\
     detected_emotion p = Some "positive") /\
  Spec.lexicon_hits CoreMind.positive_words "I love this wonderful day" = 2 /\
  Spec.lexicon_hits CoreMind.negative_words "I love this wonderful day" = 0.
Proof.
  intros pos neg. split; [|split; [|split]].
  - eexists. split; [reflexivity|]. simpl.
    destruct (analyze_emotion_cases text) as [[H ->] | [[H ->] | [H ->]]];
      fold pos neg in H; repeat split; intros H'; try reflexivity;
      try discriminate; lia.
  - eexists. split; reflexivity.
  - reflexivity.
  - reflexivity.
Qed.

(** ** Dataclass equality *)

Lemma lex_compare_eq (a b : list N) : DateTime.lex_compare a b = Eq <-> a = b.
Proof.
  revert b. induction a as [|x a IH]; intros [|y b]; simpl;
    try (split; [discriminate | intros H; discriminate]); [tauto|].
  destruct (N.compare_spec x y) as [->|H|H].
  - rewrite IH. split; [now intros -> | now intros [= ->]].
  - split; [discriminate | intros [= -> _]; lia].
  - split; [discriminate | intros [= -> _]; lia].
Qed.

Lemma datetime_eqb_eq (a b : DateTime.t) : DateTime.eqb a b = true <-> a = b.
Proof.
  unfold DateTime.eqb, DateTime.compare.
  destruct (DateTime.lex_compare (DateTime.fields a) (DateTime.fields b)) eqn:E.
  - apply lex_compare_eq in E. destruct a, b. injection E as -> -> -> -> -> -> ->.
    tauto.
  - split; [discriminate|]. intros ->.
    assert (H : DateTime.lex_compare (DateTime.fields b) (DateTime.fields b) = Eq)
      by now apply lex_compare_eq.
    congruence.
  - split; [discriminate|]. intros ->.
    assert (H : DateTime.lex_compare (DateTime.fields b) (DateTime.fields b) = Eq)
      by now apply lex_compare_eq.
    congruence.
Qed.

(** [Thought.eqb] holds exactly when the fields agree, numbers by value. *)
Lemma thought_eqb_fields (a b : Thought.t) :
  Thought.eqb a b = true <->
  Thought.content a = Thought.content b /\
  Thought.timestamp a = Thought.timestamp b /\
  Thought.thought_type a = Thought.thought_type b /\
  (Thought.confidence a == Thought.confidence b)%Q /\
  (Thought.emotional_valence a == Thought.emotional_valence b)%Q.
Proof.
  unfold Thought.eqb, Py.num_eq.
  rewrite !andb_true_iff, !String.eqb_eq, datetime_eqb_eq, !Qeq_bool_iff.
  tauto.
Qed.

Lemma thought_eqb_refl (a : Thought.t) : Thought.eqb a a = true.
Proof. apply thought_eqb_fields. repeat split; reflexivity. Qed.

(** ** C8: response synthesis *)

Lemma gt_lt (a b : Q) : Py.gt a b = true <-> (b < a)%Q.
Proof.
  unfold Py.gt. destruct (a ?= b)%Q eqn:E.
  - split; [discriminate|]. intros H. apply Qgt_alt in H. congruence.
  - split; [discriminate|]. intros H. apply Qgt_alt in H. congruence.
  - split; [intros _; now apply Qgt_alt | reflexivity].
Qed.

Lemma max_by_first_max {A} (key : A -> Q) (xs : list A) (best : A) :
  exists pre post,
    best :: xs = (pre ++ Py.max_by key best xs :: post)%list /\
    (forall x, In x pre -> (key x < key (Py.max_by key best xs))%Q) /\
    (forall x, In x post -> (key x <= key (Py.max_by key best xs))%Q).
Proof.
  revert best. induction xs as [|x xs IH]; intros best.
  - exists [], []. simpl. repeat split; intros ? [].
  - simpl. destruct (key best ?= key x)%Q eqn:E.
    + destruct (IH best) as (pre & post & Heq & Hpre & Hpost).
      apply Qeq_alt in E.
      destruct pre as [|p pre]; simpl in Heq; injection Heq as Hb Hxs.
      * exists [], (x :: xs). simpl. repeat split; [congruence | intros ? [] |].
        intros y [<-|Hy].
        -- rewrite <- Hb, E. apply Qle_refl.
        -- apply Hpost. now rewrite <- Hxs.
      * subst p. exists (best :: x :: pre), post. simpl.
        repeat split; [do 2 f_equal; exact Hxs | | exact Hpost].
        intros y [<-|[<-|Hy]].
        -- apply Hpre. now left.
        -- rewrite <- E. apply Hpre. now left.
        -- apply Hpre. now right.
    + destruct (IH x) as (pre & post & Heq & Hpre & Hpost).
      apply Qlt_alt in E.
      exists (best :: pre), post. simpl.
      repeat split; [f_equal; exact Heq | | exact Hpost].
      intros y [<-|Hy]; [|now apply Hpre].
      destruct pre as [|p pre]; simpl in Heq; injection Heq as Hb Hxs.
      * now rewrite <- Hb.
      * subst p. eapply Qlt_trans; [exact E|]. apply Hpre. now left.
    + destruct (IH best) as (pre & post & Heq & Hpre & Hpost).
      apply Qgt_alt in E.
      destruct pre as [|p pre]; simpl in Heq; injection Heq as Hb Hxs.
      * exists [], (x :: xs). simpl. repeat split; [congruence | intros ? [] |].
        intros y [<-|Hy].
        -- rewrite <- Hb. now apply Qlt_le_weak.
        -- apply Hpost. now rewrite <- Hxs.
      * subst p. exists (best :: x :: pre), post. simpl.
        repeat split; [do 2 f_equal; exact Hxs | | exact Hpost].
        intros y [<-|[<-|Hy]].
        -- apply Hpre. now left.
        -- eapply Qlt_trans; [exact E|]. apply Hpre. now left.
        -- apply Hpre. now right.
Qed.

Lemma filter_nil_iff {A} (f : A -> bool) (l : list A) :
  List.filter f l = [] <-> forall x, In x l -> f x = false.
Proof.
  induction l as [|a l IH]; simpl.
  - split; [intros _ ? [] | reflexivity].
  - destruct (f a) eqn:E.
    + split; [discriminate|]. intros H. specialize (H a (or_introl eq_refl)). congruence.
    + rewrite IH. split.
      * intros H x [<-|Hx]; [exact E | now apply H].
      * intros H x Hx. apply H. now right.
Qed.

Lemma filter_first {A} (f : A -> bool) (pre post : list A) (s : A) :
  f s = true -> (forall x, In x pre -> f x = false) ->
  List.filter f (pre ++ s :: post) = s :: List.filter f post.
Proof.
  intros Hs Hpre. rewrite List.filter_app.
  replace (List.filter f pre) with (@nil A) by (symmetry; now apply filter_nil_iff).
  simpl. now rewrite Hs.
Qed.

Lemma supporting_test (main t : Thought.t) :
  Py.gt (Thought.confidence t) 0.7 && negb (Thought.eqb t main) = true <->
  Spec.supporting main t.
Proof.
  unfold Spec.supporting. rewrite andb_true_iff, gt_lt, negb_true_iff. tauto.
Qed.

Lemma supporting_test_false (main t : Thought.t) :
  ~ Spec.supporting main t ->
  Py.gt (Thought.confidence t) 0.7 && negb (Thought.eqb t main) = false.
Proof.
  intros H. apply not_true_is_false. intros H'. now apply H, supporting_test.
Qed.

(** [respond] never raises. *)
Lemma respond_total (thoughts : list Thought.t) :
  exists r, CoreMind.respond thoughts = Ok r.
Proof. destruct thoughts; simpl; eauto. Qed.

(** The shape of the response on a non-empty list, in terms of the main
    thought selected by [max]. *)
Lemma respond_cons (t0 : Thought.t) (rest : list Thought.t) :
  let main := Py.max_by Thought.confidence t0 rest in
  ((forall t, In t (t0 :: rest) -> ~ Spec.supporting main t) ->
   CoreMind.respond (t0 :: rest) = Ok (Spec.opening_clause main)) /\
  (forall s, Spec.first_supporting (t0 :: rest) main s ->
   CoreMind.respond (t0 :: rest) =
   Ok (Spec.opening_clause main ++ " " ++ Spec.second_clause s)).
Proof.
  intros main. unfold CoreMind.respond. fold main. split.
  - intros Hnone.
    replace (List.filter _ (t0 :: rest)) with (@nil Thought.t); [reflexivity|].
    symmetry. apply filter_nil_iff. intros t Ht.
    now apply supporting_test_false, Hnone.
  - intros s (pre & post & Heq & Hs & Hpre). rewrite Heq.
    rewrite filter_first.
    + reflexivity.
    + now apply supporting_test.
    + intros x Hx. now apply supporting_test_false, Hpre.
Qed.

(** C8: [respond] on the empty list returns the fixed placeholder and it
    never raises; on a non-empty list the response opens with the clause of
    the first thought of maximal confidence; when some thought other than
    that main thought has a confidence above 0.7, the clause of the first
    such thought follows after one space, and otherwise nothing follows; for
    [A] of confidence 0.9 followed by [B] of confidence 0.75 the response is
    the clause of [A], a space, and the clause of [B]. *)
Theorem respond_synthesis :
  CoreMind.respond [] =
    Ok "I'm still processing that... give me a moment to think." /\
  (forall thoughts, exists r, CoreMind.respond thoughts = Ok r) /\
  (forall thoughts, thoughts <> [] ->
     exists main, Spec.first_of_max_confidence thoughts main /\
       ((forall t, In t thoughts -> ~ Spec.supporting main t) ->
        CoreMind.respond thoughts = Ok (Spec.opening_clause main)) /\
       (forall s, Spec.first_supporting thoughts main s ->
        CoreMind.respond thoughts =
        Ok (Spec.opening_clause main ++ " " ++ Spec.second_clause s))) /\
  (forall A B,
     (Thought.confidence A == 0.9)%Q -> (Thought.confidence B == 0.75)%Q ->
     CoreMind.respond [A; B] =
     Ok ("From my perspective, " ++ Py.lower (Thought.content A) ++ " " ++
         "I also consider that " ++ Py.lower (Thought.content B))).
Proof.
  split; [reflexivity|]. split; [exact respond_total|]. split.
  - intros [|t0 rest] Hne; [congruence|].
    exists (Py.max_by Thought.confidence t0 rest). split.
    + destruct (max_by_first_max Thought.confidence rest t0)
        as (pre & post & Heq & Hpre & Hpost).
      now exists pre, post.
    + apply respond_cons.
  - intros A B HA HB.
    assert (Hmain : Py.max_by Thought.confidence A [B] = A).
    { simpl. rewrite HA, HB. reflexivity. }
    pose proof (respond_cons A [B]) as [_ H]. cbv zeta in H. rewrite Hmain in H.
    rewrite (H B).
    + unfold Spec.opening_clause, Spec.second_clause.
      reflexivity.
    + exists [A], []. split; [reflexivity|]. split.
      * split; [rewrite HB; reflexivity|].
        apply not_true_is_false. intros Heq.
        apply thought_eqb_fields in Heq as (_ & _ & _ & Hc & _).
        rewrite HA, HB in Hc. discriminate.
      * intros x [<-|[]] [_ Hx]. rewrite thought_eqb_refl in Hx. discriminate.
Qed.

Lemma respond_synthesis_witness :
  CoreMind.respond
    [Thought.mk "Certainly SO" Examples.midnight "observation" 0.9 0.1;
     Thought.mk "Likely TOO" Examples.midnight "reflection" 0.75 0] =
  Ok "From my perspective, certainly so I also consider that likely too".
Proof.
  apply (proj2 (proj2 (proj2 respond_synthesis))
           (Thought.mk "Certainly SO" Examples.midnight "observation" 0.9 0.1)
           (Thought.mk "Likely TOO" Examples.midnight "reflection" 0.75 0));
    reflexivity.
Defined.

(** ** C3 and C10: the dialogue engine *)

Lemma bind_trait {A} (name : string) (k : Q -> M A) (s : State) :
  bind (InternalDialogue.trait name) k s =
  match DialogueState.personality_traits (dialogue s) !! name with
  | Some q => k q s
  | None => (Raise (KeyError name), s)
  end.
Proof.
  unfold InternalDialogue.trait, bind, get, getitem.
  now destruct (DialogueState.personality_traits (dialogue s) !! name).
Qed.

(** Evaluate a run of the monad on a state given by its components. *)
Ltac run_M :=
  cbn -[Py.gt lookup];
  repeat (first [ rewrite bind_trait
                | match goal with
                  | H : _ !! _ = _ |- _ => rewrite H
                  | H : Py.gt _ _ = _ |- _ => rewrite H
                  | |- context [Py.gt ?a ?b] =>
                      let v := eval vm_compute in (Py.gt a b) in
                      match v with
                      | true => change (Py.gt a b) with true
                      | false => change (Py.gt a b) with false
                      end
                  end ];
          cbn -[Py.gt lookup]).

(** With both gating traits present, [contemplate] returns: one thought for
    the initial reaction, one more when there are memories, and one more for
    each of the two traits of the engine that exceeds its threshold. *)
Lemma contemplate_gated_by_engine_traits {P : Type}
    (perception : Perception) (memories : list Memory.t) (personality : P)
    (s : State) (i c : Q) :
  DialogueState.personality_traits (dialogue s) !! "introspection" = Some i ->
  DialogueState.personality_traits (dialogue s) !! "curiosity" = Some c ->
  exists ths s',
    InternalDialogue.contemplate perception memories personality s = (Ok ths, s') /\
    ths <> [] /\
    length ths =
      (1 + (if memories is [] then 0 else 1)
         + (if Py.gt i 0.7 then 1 else 0)
         + (if Py.gt c 0.6 then 1 else 0))%nat.
Proof.
  intros Hi Hc.
  destruct s as [mem [history traits] [files flt wl tk]]. simpl in Hi, Hc.
  unfold InternalDialogue.contemplate.
  destruct (default "statement" (question_type perception) =? "philosophical")%string eqn:E1;
    [|destruct (default "statement" (question_type perception) =? "inquiry")%string eqn:E2];
    (destruct memories as [|m0 ms];
     destruct (Py.gt i 0.7) eqn:Ei; destruct (Py.gt c 0.6) eqn:Ec;
     do 2 eexists; (split; [unfold InternalDialogue._generate_initial_reaction;
                            rewrite ?E1, ?E2; run_M; reflexivity
                           | split; [discriminate | reflexivity]])).
Qed.

(** C3: in a dialogue engine whose trait profile has introspection 0.9 and
    curiosity 0.8 (whatever its other traits), [contemplate] on a perception
    of question type "statement" (given, or by default) without key concepts
    (an empty or absent list) and on no memories
    returns exactly three thoughts: the initial observation, the
    meta-reflection and the curious question, stamped by three successive
    clock readings; none of them is a memory reflection, the sequence is not
    empty, and the three thoughts are appended to the history of the
    engine. *)
Theorem contemplate_statement_without_memories
    (s : State) (perception : Perception) (P : Type) (personality : P)
    (Hquestion : default "statement" (question_type perception) = "statement")
    (Hconcepts : default [] (key_concepts perception) = [])
    (Hintrospection :
       DialogueState.personality_traits (dialogue s) !! "introspection"
       = Some 0.9%Q)
    (Hcuriosity :
       DialogueState.personality_traits (dialogue s) !! "curiosity"
       = Some 0.8%Q) :
  let clock n := wall (world s) (n + ticks (world s))%nat in
  let produced :=
    [Thought.mk "Let me process what this person is communicating to me"
       (clock 0%nat) "observation" 0.7 0.1;
     Thought.mk
       "I notice I'm approaching this in a particular way - let me consider if there are other perspectives"
       (clock 1%nat) "meta-reflection" 0.7 0.2;
     Thought.mk "There might be layers to this that I haven't considered yet"
       (clock 2%nat) "question" 0.6 0.3] in
  exists s',
    InternalDialogue.contemplate perception [] personality s = (Ok produced, s') /\
    length produced = 3%nat /\
    produced <> [] /\
    Forall (fun t => Thought.thought_type t <> "reflection") produced /\
    DialogueState.thoughts (dialogue s') =
      (DialogueState.thoughts (dialogue s) ++ produced)%list /\
    memory s' = memory s /\
    (forall perception' memories' (P' : Type) (personality' : P'),
       exists ths s'',
         InternalDialogue.contemplate perception' memories' personality' s
         = (Ok ths, s'') /\ ths <> []).
Proof.
  intros clock produced. subst clock produced.
  assert (Hnonempty :
            forall perception' memories' (P' : Type) (personality' : P'),
              exists ths s'',
                InternalDialogue.contemplate perception' memories' personality' s
                = (Ok ths, s'') /\ ths <> []).
  { intros perception' memories' P' personality'.
    destruct (contemplate_gated_by_engine_traits perception' memories'
                personality' s _ _ Hintrospection Hcuriosity)
      as (ths & s'' & H & Hne & _).
    now exists ths, s''. }
  destruct s as [mem [history traits] [files flt wl tk]].
  simpl in Hintrospection, Hcuriosity.
  eexists. split.
  - unfold InternalDialogue.contemplate,
      InternalDialogue._generate_initial_reaction,
      InternalDialogue._generate_curious_thought.
    rewrite Hquestion, Hconcepts. run_M. reflexivity.
  - repeat split; try discriminate; try exact Hnonempty.
    repeat constructor; discriminate.
Qed.

Lemma contemplate_statement_without_memories_witness :
  exists s',
    InternalDialogue.contemplate
      (mkPerception (Some "It rains") (Some "neutral") (Some [])
         (Some "statement") (Some 0.2%Q))
      [] SentimentAgent.initial_personality
      (snd (SentimentAgent.__init__ "ARIA" None Examples.empty_world))
    = (Ok [Thought.mk "Let me process what this person is communicating to me"
             (Examples.clock 0) "observation" 0.7 0.1;
           Thought.mk
             "I notice I'm approaching this in a particular way - let me consider if there are other perspectives"
             (Examples.clock 1) "meta-reflection" 0.7 0.2;
           Thought.mk
             "There might be layers to this that I haven't considered yet"
             (Examples.clock 2) "question" 0.6 0.3], s').
Proof.
  destruct (contemplate_statement_without_memories
              (snd (SentimentAgent.__init__ "ARIA" None Examples.empty_world))
              (mkPerception (Some "It rains") (Some "neutral") (Some [])
                 (Some "statement") (Some 0.2%Q))
              _ SentimentAgent.initial_personality
              eq_refl eq_refl eq_refl eq_refl) as [s' [H _]].
  exists s'. exact H.
Defined.

(** Apart from the timestamps, the outcome of [contemplate] depends on the
    state only through the trait profile of the engine. *)
Lemma contemplate_untimed {P1 P2 : Type}
    (perception : Perception) (memories : list Memory.t)
    (personality1 : P1) (personality2 : P2) (s1 s2 : State) :
  DialogueState.personality_traits (dialogue s1) =
  DialogueState.personality_traits (dialogue s2) ->
  Spec.untimed_outcome
    (fst (InternalDialogue.contemplate perception memories personality1 s1)) =
  Spec.untimed_outcome
    (fst (InternalDialogue.contemplate perception memories personality2 s2)).
Proof.
  destruct s1 as [mem1 [history1 traits] [files1 flt1 wl1 tk1]].
  destruct s2 as [mem2 [history2 traits2] [files2 flt2 wl2 tk2]].
  simpl. intros <-.
  unfold InternalDialogue.contemplate, InternalDialogue._generate_initial_reaction.
  destruct (default "statement" (question_type perception) =? "philosophical")%string;
    [|destruct (default "statement" (question_type perception) =? "inquiry")%string];
    (destruct memories as [|m0 ms];
     (destruct (traits !! "introspection") as [i|] eqn:Hi;
      [destruct (Py.gt i 0.7) eqn:Ei|]);
     (destruct (traits !! "curiosity") as [c|] eqn:Hc;
      [destruct (Py.gt c 0.6) eqn:Ec|]);
     run_M; reflexivity).
Qed.

(** C10: the [personality] argument of [contemplate] never influences its
    outcome: two calls that differ only in that argument, whatever the two
    values and their types, return the same thoughts and leave the same
    state; two calls in different states of the world (clock, files,
    memories, history) of engines with the same trait profile return
    thoughts that agree in content, kind, confidence and emotional valence,
    whatever the two [personality] arguments.  Accordingly [think] does not
    depend on the boolean [personality] mapping of the agent.  The steps are
    gated by the trait profile the engine itself holds: the number of
    thoughts returned is determined by that profile, and a profile that
    lacks a gating trait makes [contemplate] raise. *)
Theorem contemplate_ignores_personality_argument
    (perception : Perception) (memories : list Memory.t)
    (P1 P2 : Type) (personality1 : P1) (personality2 : P2)
    (agent : SentimentAgent.t) (other : gmap string bool)
    (stimulus : string) (s : State)
    (memory2 : MemoryState.t) (history2 : list Thought.t) (world2 : World) :
  InternalDialogue.contemplate perception memories personality1 s =
  InternalDialogue.contemplate perception memories personality2 s /\
  Spec.untimed_outcome
    (fst (InternalDialogue.contemplate perception memories personality1 s)) =
  Spec.untimed_outcome
    (fst (InternalDialogue.contemplate perception memories personality2
            (mkState memory2
               (DialogueState.mk history2
                  (DialogueState.personality_traits (dialogue s)))
               world2))) /\
  SentimentAgent.think
    (SentimentAgent.mk (SentimentAgent.name agent) (SentimentAgent.mind agent)
       other) stimulus s =
  SentimentAgent.think agent stimulus s /\
  match DialogueState.personality_traits (dialogue s) !! "introspection",
        DialogueState.personality_traits (dialogue s) !! "curiosity" with
  | Some i, Some c =>
      exists ths s',
        InternalDialogue.contemplate perception memories personality1 s
        = (Ok ths, s') /\
        length ths =
          (1 + (if memories is [] then 0 else 1)
             + (if Py.gt i 0.7 then 1 else 0)
             + (if Py.gt c 0.6 then 1 else 0))%nat
  | _, _ =>
      exists e s',
        InternalDialogue.contemplate perception memories personality1 s
        = (Raise e, s')
  end.
Proof.
  split; [reflexivity|]. split; [now apply contemplate_untimed|].
  split; [reflexivity|].
  destruct (DialogueState.personality_traits (dialogue s) !! "introspection")
    as [i|] eqn:Hi.
  - destruct (DialogueState.personality_traits (dialogue s) !! "curiosity")
      as [c|] eqn:Hc.
    + destruct (contemplate_gated_by_engine_traits perception memories
                  personality1 s i c Hi Hc) as (ths & s' & H & _ & Hlen).
      now exists ths, s'.
    + destruct s as [mem [history traits] [files flt wl tk]]. simpl in Hi, Hc.
      unfold InternalDialogue.contemplate, InternalDialogue._generate_initial_reaction.
      destruct (default "statement" (question_type perception) =? "philosophical")%string;
        [|destruct (default "statement" (question_type perception) =? "inquiry")%string];
        (destruct memories as [|m0 ms]; destruct (Py.gt i 0.7) eqn:Ei;
         do 2 eexists; run_M; reflexivity).
  - destruct s as [mem [history traits] [files flt wl tk]]. simpl in Hi.
    unfold InternalDialogue.contemplate, InternalDialogue._generate_initial_reaction.
    destruct (default "statement" (question_type perception) =? "philosophical")%string;
      [|destruct (default "statement" (question_type perception) =? "inquiry")%string];
      (destruct memories as [|m0 ms]; do 2 eexists; run_M; reflexivity).
Qed.

(** The profile of a freshly constructed agent gates both optional steps
    in; with the introspection trait lowered to the threshold the
    meta-reflection disappears, whatever [personality] is passed. *)
Example gating_follows_engine_traits :
  let s := snd (SentimentAgent.__init__ "ARIA" None Examples.empty_world) in
  let lowered :=
    mkState (memory s)
      (DialogueState.mk []
         (<["introspection" := 0.7%Q]> InternalDialogue.initial_traits))
      (world s) in
  let p := mkPerception (Some "It rains") None (Some []) (Some "statement") None in
  Spec.untimed_outcome
    (fst (InternalDialogue.contemplate p [] SentimentAgent.initial_personality s))
  = Ok [("Let me process what this person is communicating to me",
         "observation", 0.7%Q, 0.1%Q);
        ("I notice I'm approaching this in a particular way - let me consider if there are other perspectives",
         "meta-reflection", 0.7%Q, 0.2%Q);
        ("There might be layers to this that I haven't considered yet",
         "question", 0.6%Q, 0.3%Q)] /\
  Spec.untimed_outcome
    (fst (InternalDialogue.contemplate p [] SentimentAgent.initial_personality
            lowered))
  = Ok [("Let me process what this person is communicating to me",
         "observation", 0.7%Q, 0.1%Q);
        ("There might be layers to this that I haven't considered yet",
         "question", 0.6%Q, 0.3%Q)].
Proof. vm_compute. split; reflexivity. Qed.

(** ** The order on timestamps and on sort keys *)

Lemma lex_compare_antisym (a b : list N) :
  DateTime.lex_compare b a = CompOpp (DateTime.lex_compare a b).
Proof.
  revert b. induction a as [|x a IH]; intros [|y b]; simpl; try reflexivity.
  rewrite (N.compare_antisym x y).
  destruct (x ?= y)%N; simpl; [apply IH | reflexivity | reflexivity].
Qed.

Lemma lex_compare_lt_trans (a b c : list N) :
  DateTime.lex_compare a b = Lt -> DateTime.lex_compare b c = Lt ->
  DateTime.lex_compare a c = Lt.
Proof.
  revert b c. induction a as [|x a IH]; intros [|y b] [|z c]; simpl;
    try discriminate; try reflexivity.
  destruct (N.compare_spec x y) as [->|Hxy|Hxy]; try discriminate.
  - destruct (N.compare_spec y z) as [->|Hyz|Hyz]; try discriminate.
    + apply IH.
    + reflexivity.
  - intros _. destruct (N.compare_spec y z) as [->|Hyz|Hyz]; try discriminate.
    + intros _. now apply N.compare_lt_iff in Hxy as ->.
    + intros _. assert (H : (x < z)%N) by lia. now apply N.compare_lt_iff in H as ->.
Qed.

Lemma datetime_ltb_asym (a b : DateTime.t) :
  DateTime.ltb a b = true -> DateTime.ltb b a = false.
Proof.
  unfold DateTime.ltb, DateTime.compare.
  rewrite (lex_compare_antisym (DateTime.fields a) (DateTime.fields b)).
  now destruct (DateTime.lex_compare (DateTime.fields a) (DateTime.fields b)).
Qed.

Lemma datetime_not_ltb_trans (a b c : DateTime.t) :
  DateTime.ltb a b = false -> DateTime.ltb b c = false ->
  DateTime.ltb a c = false.
Proof.
  unfold DateTime.ltb, DateTime.compare.
  set (fa := DateTime.fields a). set (fb := DateTime.fields b).
  set (fc := DateTime.fields c).
  destruct (DateTime.lex_compare fa fb) eqn:Eab; try discriminate; intros _.
  - apply lex_compare_eq in Eab. now rewrite Eab.
  - destruct (DateTime.lex_compare fb fc) eqn:Ebc; try discriminate; intros _.
    + apply lex_compare_eq in Ebc. now rewrite <- Ebc, Eab.
    + assert (Hcb : DateTime.lex_compare fc fb = Lt)
        by (rewrite lex_compare_antisym, Ebc; reflexivity).
      assert (Hba : DateTime.lex_compare fb fa = Lt)
        by (rewrite lex_compare_antisym, Eab; reflexivity).
      pose proof (lex_compare_lt_trans _ _ _ Hcb Hba) as Hca.
      rewrite lex_compare_antisym, Hca. reflexivity.
Qed.

(** The negation of the sort comparison is the ranking of the
    specification. *)
Lemma key_ltb_false (a b : Memory.t) :
  MemorySystem.key_ltb a b = false <-> Spec.ranks_before a b.
Proof.
  unfold MemorySystem.key_ltb, Spec.ranks_before.
  destruct (Memory.importance a ?= Memory.importance b)%Q eqn:E.
  - apply Qeq_alt in E. split.
    + intros H. right. now split.
    + intros [H|[_ H]]; [|exact H]. rewrite E in H. now apply Qlt_irrefl in H.
  - apply Qlt_alt in E. split; [discriminate|].
    intros [H|[H _]].
    + exfalso. apply (Qlt_irrefl (Memory.importance a)). now apply Qlt_trans with (Memory.importance b).
    + rewrite H in E. now apply Qlt_irrefl in E.
  - apply Qgt_alt in E. split; [intros _; now left | reflexivity].
Qed.

Lemma ranks_before_total (a b : Memory.t) :
  MemorySystem.key_ltb a b = true -> Spec.ranks_before b a.
Proof.
  unfold MemorySystem.key_ltb, Spec.ranks_before.
  destruct (Memory.importance a ?= Memory.importance b)%Q eqn:E; try discriminate.
  - apply Qeq_alt in E. intros H. right. split; [now symmetry|].
    now apply datetime_ltb_asym.
  - apply Qlt_alt in E. intros _. now left.
Qed.

Lemma ranks_before_trans (a b c : Memory.t) :
  Spec.ranks_before a b -> Spec.ranks_before b c -> Spec.ranks_before a c.
Proof.
  unfold Spec.ranks_before.
  intros [Hab|[Hab Tab]] [Hbc|[Hbc Tbc]].
  - left. now apply Qlt_trans with (Memory.importance b).
  - left. now rewrite <- Hbc.
  - left. now rewrite Hab.
  - right. split; [now rewrite Hab|].
    now apply datetime_not_ltb_trans with (Memory.timestamp b).
Qed.

(** ** C4: recall *)

Lemma insert_desc_In (x m : Memory.t) (l : list Memory.t) :
  In m (MemorySystem.insert_desc x l) <-> m = x \/ In m l.
Proof.
  induction l as [|y l IH]; simpl.
  - intuition congruence.
  - destruct (MemorySystem.key_ltb x y); simpl; rewrite ?IH; intuition congruence.
Qed.

Lemma sort_desc_In (m : Memory.t) (l : list Memory.t) :
  In m (MemorySystem.sort_desc l) <-> In m l.
Proof.
  induction l as [|x l IH]; simpl; [tauto|].
  rewrite insert_desc_In, IH. intuition congruence.
Qed.

Lemma insert_desc_sorted (x : Memory.t) (l : list Memory.t) :
  StronglySorted Spec.ranks_before l ->
  StronglySorted Spec.ranks_before (MemorySystem.insert_desc x l).
Proof.
  induction 1 as [|y l Hl IH Hy]; simpl.
  - repeat constructor.
  - destruct (MemorySystem.key_ltb x y) eqn:E.
    + constructor; [exact IH|].
      apply List.Forall_forall. intros z Hz. apply insert_desc_In in Hz as [->|Hz].
      * now apply ranks_before_total.
      * rewrite List.Forall_forall in Hy. now apply Hy.
    + apply key_ltb_false in E. constructor; [now constructor|].
      constructor; [exact E|].
      rewrite List.Forall_forall in Hy. apply List.Forall_forall. intros z Hz.
      apply ranks_before_trans with y; [exact E | now apply Hy].
Qed.

Lemma sort_desc_sorted (l : list Memory.t) :
  StronglySorted Spec.ranks_before (MemorySystem.sort_desc l).
Proof.
  induction l as [|x l IH]; simpl; [constructor | now apply insert_desc_sorted].
Qed.

Lemma StronglySorted_take {A} (R : A -> A -> Prop) (n : nat) (l : list A) :
  StronglySorted R l -> StronglySorted R (take n l).
Proof.
  intros H. revert n. induction H as [|x l Hl IH Hx]; intros [|n]; simpl;
    try constructor.
  - apply IH.
  - rewrite List.Forall_forall in Hx. apply List.Forall_forall. intros y Hy.
    apply Hx. rewrite <- (firstn_skipn n l). apply in_or_app. now left.
Qed.

Lemma StronglySorted_lookup {A} (R : A -> A -> Prop) (l : list A)
    (i j : nat) (a b : A) :
  StronglySorted R l -> (i < j)%nat ->
  l !! i = Some a -> l !! j = Some b -> R a b.
Proof.
  intros H. revert i j. induction H as [|x l Hl IH Hx]; intros i j Hij Ha Hb.
  - discriminate.
  - destruct j as [|j]; [lia|]. simpl in Hb. destruct i as [|i].
    + injection Ha as <-. rewrite List.Forall_forall in Hx. apply Hx.
      apply list_elem_of_In. eapply list_elem_of_lookup_2. exact Hb.
    + simpl in Ha. apply (IH i j); [lia | exact Ha | exact Hb].
Qed.

Lemma mem_In (x : string) (xs : list string) : Py.mem x xs = true <-> In x xs.
Proof.
  unfold Py.mem. rewrite existsb_exists. split.
  - intros [y [Hy E]]. apply String.eqb_eq in E. now subst.
  - intros H. exists x. split; [exact H | apply String.eqb_refl].
Qed.

Lemma relevant_shares_token (perception : Perception) (m : Memory.t) :
  MemorySystem.relevant (default [] (key_concepts perception)) m = true <->
  Spec.shares_token perception m.
Proof.
  unfold MemorySystem.relevant, Spec.shares_token. rewrite existsb_exists.
  split; intros [c [Hc H]]; exists c; (split; [exact Hc | now apply mem_In]).
Qed.

Lemma take_In {A} (n : nat) (l : list A) (x : A) : In x (take n l) -> In x l.
Proof.
  intros H. rewrite <- (firstn_skipn n l). apply in_or_app. now left.
Qed.

Lemma insert_desc_length (x : Memory.t) (l : list Memory.t) :
  length (MemorySystem.insert_desc x l) = S (length l).
Proof.
  induction l as [|y l IH]; simpl; [reflexivity|].
  destruct (MemorySystem.key_ltb x y); simpl; [now rewrite IH | reflexivity].
Qed.

Lemma sort_desc_length (l : list Memory.t) :
  length (MemorySystem.sort_desc l) = length l.
Proof.
  induction l as [|x l IH]; simpl; [reflexivity|].
  now rewrite insert_desc_length, IH.
Qed.

(** Only the truncation to 3 drops matching memories. *)
Lemma recall_from_length (perception : Perception) (ms : list Memory.t) :
  length (MemorySystem.recall_from perception ms) =
  Nat.min 3
    (length (List.filter
               (MemorySystem.relevant (default [] (key_concepts perception))) ms)).
Proof.
  unfold MemorySystem.recall_from. now rewrite length_take, sort_desc_length.
Qed.

(** C4: [recall] leaves the state unchanged and returns at most 3 memories;
    each of them is held by the store and shares a token with the key
    concepts of the perception; of any two returned memories the earlier one
    is more important, or as important and not older; when no stored memory
    shares a token the result is empty. *)
Theorem recall_top_three (perception : Perception) (s : State) :
  exists r,
    MemorySystem.recall perception s = (Ok r, s) /\
    (length r <= 3)%nat /\
    (forall m, In m r ->
       In m (MemoryState.memories (memory s)) /\
       Spec.shares_token perception m) /\
    (forall i j a b, (i < j)%nat -> r !! i = Some a -> r !! j = Some b ->
       (Memory.importance b < Memory.importance a)%Q \/
       ((Memory.importance a == Memory.importance b)%Q /\
        DateTime.ltb (Memory.timestamp a) (Memory.timestamp b) = false)) /\
    ((forall m, In m (MemoryState.memories (memory s)) ->
        ~ Spec.shares_token perception m) -> r = []).
Proof.
  exists (MemorySystem.recall_from perception (MemoryState.memories (memory s))).
  split; [reflexivity|]. unfold MemorySystem.recall_from.
  split; [|split; [|split]].
  - rewrite length_take. lia.
  - intros m Hm. apply take_In, sort_desc_In, filter_In in Hm as [Hin Hrel].
    split; [exact Hin | now apply relevant_shares_token].
  - intros i j a b Hij Ha Hb.
    apply (StronglySorted_lookup Spec.ranks_before _ i j a b
             (StronglySorted_take _ 3 _ (sort_desc_sorted _)) Hij Ha Hb).
  - intros Hnone.
    replace (List.filter _ (MemoryState.memories (memory s))) with (@nil Memory.t);
      [reflexivity|].
    symmetry. apply filter_nil_iff. intros m Hm. apply not_true_is_false.
    intros Hrel. now apply (Hnone m Hm), relevant_shares_token.
Qed.

(** ** Frame rules *)

Section Frame.

Context (I : State -> State -> Prop) `{!PreOrder I}.

Lemma respects_ret {A} (a : A) : respects I (ret a).
Proof. intros s r s' [= _ <-]. reflexivity. Qed.

Lemma respects_raise {A} (e : exn) : respects I (@raise A e).
Proof. intros s r s' [= _ <-]. reflexivity. Qed.

Lemma respects_lift {A} (x : result A) : respects I (lift x).
Proof. intros s r s' [= _ <-]. reflexivity. Qed.

Lemma respects_get : respects I get.
Proof. intros s r s' [= _ <-]. reflexivity. Qed.

Lemma respects_getitem {A} (key : string) (v : option A) :
  respects I (getitem key v).
Proof. destruct v; [apply respects_ret | apply respects_raise]. Qed.

Lemma respects_bind {A B} (m : M A) (k : A -> M B) :
  respects I m -> (forall a, respects I (k a)) -> respects I (bind m k).
Proof.
  intros Hm Hk s r s'. unfold bind.
  destruct (m s) as [[a|e] s1] eqn:E.
  - intros H. transitivity s1; [exact (Hm _ _ _ E) | exact (Hk _ _ _ _ H)].
  - intros [= _ <-]. exact (Hm _ _ _ E).
Qed.

Lemma respects_try_except {A} (body : M A) (handler : exn -> M A) :
  respects I body -> (forall e, respects I (handler e)) ->
  respects I (try_except body handler).
Proof.
  intros Hb Hh s r s'. unfold try_except.
  destruct (body s) as [[a|e] s1] eqn:E.
  - intros [= _ <-]. exact (Hb _ _ _ E).
  - intros H. transitivity s1; [exact (Hb _ _ _ E) | exact (Hh _ _ _ _ H)].
Qed.

End Frame.

#[local] Instance same_store_preorder : PreOrder same_store.
Proof.
  split.
  - intros s. now repeat split.
  - intros a b c (H1 & H2 & H3) (H1' & H2' & H3').
    repeat split; congruence.
Qed.

#[local] Instance grows_preorder : PreOrder grows.
Proof.
  split.
  - intros s. exists []. now rewrite app_nil_r.
  - intros a b c [t1 H1] [t2 H2]. exists (t1 ++ t2)%list.
    now rewrite H2, H1, <- app_assoc.
Qed.

Lemma same_store_grows (s s' : State) : same_store s s' -> grows s s'.
Proof. intros [H _]. exists []. now rewrite H, app_nil_r. Qed.

Lemma now_same_store : respects same_store now.
Proof. intros s r s' [= _ <-]. now repeat split. Qed.

Lemma set_thoughts_same_store (ts : list Thought.t) :
  respects same_store (set_thoughts ts).
Proof. intros s r s' [= _ <-]. now repeat split. Qed.

(** Decompose a frame goal along the structure of the program. *)
Ltac frame :=
  repeat first
    [ apply respects_ret | apply respects_raise | apply respects_lift
    | apply respects_get | apply respects_getitem
    | apply now_same_store | apply set_thoughts_same_store
    | apply respects_bind; [typeclasses eauto | | intros ?]
    | match goal with
      | |- respects _ (match ?x with _ => _ end) => destruct x
      | |- respects _ (let '(_, _) := ?x in _) => destruct x
      end ];
  try typeclasses eauto.

(** [contemplate] touches neither the memory system nor the files, whether
    it returns or raises. *)
Lemma contemplate_same_store {P : Type} (perception : Perception)
    (memories : list Memory.t) (personality : P) :
  respects same_store
    (InternalDialogue.contemplate perception memories personality).
Proof.
  unfold InternalDialogue.contemplate, InternalDialogue._generate_initial_reaction,
    InternalDialogue._reflect_on_memories, InternalDialogue._meta_reflection,
    InternalDialogue._generate_curious_thought, InternalDialogue.trait.
  frame.
Qed.

Lemma recall_same_store (perception : Perception) :
  respects same_store (MemorySystem.recall perception).
Proof. unfold MemorySystem.recall. frame. Qed.

(** ** Runs of the memory system *)

(** [_save_memories] never raises; what it leaves on disk depends on the
    fault of the path. *)
Lemma save_run (s : State) :
  MemorySystem._save_memories s =
  let w := world s in
  let path := MemoryState.memory_file (memory s) in
  (Ok tt,
   mkState (memory s) (dialogue s)
     (mkWorld
        match faults w !! path with
        | Some OpenFails => fs w
        | Some DumpFails => <[path := Garbage]> (fs w)
        | None =>
            <[path := Document
                        (map MemorySystem.to_dict
                           (MemoryState.memories (memory s)))]> (fs w)
        end
        (faults w) (wall w) (ticks w))).
Proof.
  destruct s as [mem dlg [files flt wl tk]].
  unfold MemorySystem._save_memories, bind, get, try_except. cbn -[lookup insert].
  destruct (flt !! MemoryState.memory_file mem) as [[|]|]; reflexivity.
Qed.

(** [store] raises only when the perception has no raw input, before any
    change of state; otherwise it appends one memory and saves. *)
Lemma store_run (perception : Perception) (thoughts : list Thought.t)
    (response : string) (s : State) :
  MemorySystem.store perception thoughts response s =
  match raw_input perception with
  | None => (Raise (KeyError "raw_input"), s)
  | Some raw =>
      let w := world s in
      let path := MemoryState.memory_file (memory s) in
      let m :=
        Memory.mk ("Input: " ++ raw ++ " | Response: " ++ response)
          (wall w (ticks w)) "episodic"
          (MemorySystem._calculate_importance perception thoughts)
          (MemorySystem._calculate_emotional_impact thoughts)
          (map Thought.content (take 2 thoughts)) in
      let ms := (MemoryState.memories (memory s) ++ [m])%list in
      (Ok tt,
       mkState (MemoryState.mk path ms) (dialogue s)
         (mkWorld
            match faults w !! path with
            | Some OpenFails => fs w
            | Some DumpFails => <[path := Garbage]> (fs w)
            | None => <[path := Document (map MemorySystem.to_dict ms)]> (fs w)
            end
            (faults w) (wall w) (S (ticks w))))
  end.
Proof.
  unfold MemorySystem.store.
  destruct (raw_input perception) as [raw|]; [|reflexivity].
  destruct s as [[path ms] dlg [files flt wl tk]].
  unfold bind at 1. cbn [getitem ret].
  unfold bind at 1. cbn [now world wall ticks fs faults memory dialogue].
  unfold bind at 1. cbn [get].
  unfold bind at 1.
  cbn [set_memories memory MemoryState.memories MemoryState.memory_file dialogue world].
  rewrite save_run. reflexivity.
Qed.

(** [_load_memories] never raises; it replaces the memories only when the
    file holds a document all of whose records decode. *)
Lemma load_run (s : State) :
  MemorySystem._load_memories s =
  (Ok tt,
   match fs (world s) !! MemoryState.memory_file (memory s) with
   | Some (Document data) =>
       match mapM MemorySystem.of_dict data with
       | Some ms =>
           mkState (MemoryState.mk (MemoryState.memory_file (memory s)) ms)
             (dialogue s) (world s)
       | None => s
       end
   | _ => s
   end).
Proof.
  unfold MemorySystem._load_memories, bind, get, try_except.
  destruct (fs (world s) !! MemoryState.memory_file (memory s)) as [[|data]|];
    try reflexivity.
  now destruct (mapM MemorySystem.of_dict data).
Qed.

Lemma init_run (path : string) (s : State) :
  MemorySystem.__init__ path s =
  MemorySystem._load_memories
    (mkState (MemoryState.mk path []) (dialogue s) (world s)).
Proof. reflexivity. Qed.

Lemma store_grows (perception : Perception) (thoughts : list Thought.t)
    (response : string) :
  respects grows (MemorySystem.store perception thoughts response).
Proof.
  intros s r s'. rewrite store_run.
  destruct (raw_input perception); intros [= _ <-].
  - eexists. reflexivity.
  - reflexivity.
Qed.

(** A raising run of the [try] block of [think] has left the memory system
    and the files as they were. *)
Lemma think_body_raise_same_store (agent : SentimentAgent.t)
    (stimulus : string) (s s1 : State) (e : exn) :
  SentimentAgent.think_body agent stimulus s = (Raise e, s1) ->
  same_store s s1.
Proof.
  unfold SentimentAgent.think_body, bind at 1, lift.
  destruct (CoreMind.i_perceive (SentimentAgent.mind agent) stimulus) as [p|e0];
    [|intros [= _ <-]; reflexivity].
  unfold bind at 1, MemorySystem.recall at 1, bind at 1, get, ret.
  unfold bind at 1.
  destruct (InternalDialogue.contemplate p _ (SentimentAgent.personality agent) s)
    as [[ths|e1] s2] eqn:Hc;
    pose proof (contemplate_same_store _ _ _ _ _ _ Hc) as Hs2;
    [|intros [= _ <-]; exact Hs2].
  unfold bind at 1.
  destruct (CoreMind.i_respond (SentimentAgent.mind agent) ths) as [resp|e2];
    [|intros [= _ <-]; exact Hs2].
  unfold bind at 1. rewrite store_run.
  destruct (raw_input p); [discriminate | intros [= _ <-]; exact Hs2].
Qed.

Lemma respects_same_store_grows {A} (m : M A) :
  respects same_store m -> respects grows m.
Proof. intros H s r s' Hrun. eapply same_store_grows, H, Hrun. Qed.

Lemma think_grows (agent : SentimentAgent.t) (stimulus : string) :
  respects grows (SentimentAgent.think agent stimulus).
Proof.
  unfold SentimentAgent.think, SentimentAgent.think_body.
  apply respects_try_except;
    [typeclasses eauto | | intros; apply respects_ret; typeclasses eauto].
  apply respects_bind;
    [typeclasses eauto | apply respects_lift; typeclasses eauto | intros p].
  apply (respects_bind grows (MemorySystem.recall p));
    [apply respects_same_store_grows, recall_same_store | intros mems].
  apply (respects_bind grows (InternalDialogue.contemplate _ _ _));
    [apply respects_same_store_grows, contemplate_same_store | intros ths].
  apply respects_bind;
    [typeclasses eauto | apply respects_lift; typeclasses eauto | intros resp].
  apply (respects_bind grows (MemorySystem.store _ _ _));
    [apply store_grows | intros _].
  apply respects_ret; typeclasses eauto.
Qed.

Lemma converse_grows (agent : SentimentAgent.t) (questions : list string) :
  respects grows (converse agent questions).
Proof.
  induction questions as [|q qs IH]; simpl.
  - apply respects_ret; typeclasses eauto.
  - apply respects_bind; [typeclasses eauto | apply think_grows | intros r].
    apply respects_bind; [typeclasses eauto | exact IH | intros rs].
    apply respects_ret; typeclasses eauto.
Qed.

(** [think] never raises. *)
Lemma think_total (agent : SentimentAgent.t) (stimulus : string) (s : State) :
  exists r s', SentimentAgent.think agent stimulus s = (Ok r, s').
Proof.
  unfold SentimentAgent.think, try_except.
  destruct (SentimentAgent.think_body agent stimulus s) as [[r|e] s1]; eauto.
Qed.

(** ** C5: failures of the pipeline *)

(** C5: when a stage of the pipeline raises (the [try] block of [think]
    does not complete), [think] returns the fixed apology instead of raising
    and the memory system is as before: same in-memory sequence, same
    files; when it is the perception stage that raised, the whole state is
    unchanged. *)
Theorem think_absorbs_failures
    (agent : SentimentAgent.t) (stimulus : string) (s s1 : State) (e : exn)
    (Hraise : SentimentAgent.think_body agent stimulus s = (Raise e, s1)) :
  SentimentAgent.think agent stimulus s =
    (Ok "I'm having trouble processing that right now. Could you rephrase it?",
     s1) /\
  MemoryState.memories (memory s1) = MemoryState.memories (memory s) /\
  length (MemoryState.memories (memory s1)) =
    length (MemoryState.memories (memory s)) /\
  fs (world s1) = fs (world s) /\
  (forall e', CoreMind.i_perceive (SentimentAgent.mind agent) stimulus = Raise e' ->
     s1 = s).
Proof.
  pose proof (think_body_raise_same_store _ _ _ _ _ Hraise) as (Hm & Hf & _).
  split; [|split; [|split; [|split]]].
  - unfold SentimentAgent.think, try_except. now rewrite Hraise.
  - now rewrite Hm.
  - now rewrite Hm.
  - exact Hf.
  - intros e' Hp. unfold SentimentAgent.think_body, bind, lift in Hraise.
    rewrite Hp in Hraise. now injection Hraise.
Qed.

Lemma think_absorbs_failures_witness :
  SentimentAgent.think Examples.broken_agent "hello there"
    Examples.one_memory_state =
    (Ok "I'm having trouble processing that right now. Could you rephrase it?",
     Examples.one_memory_state) /\
  MemoryState.memories (memory Examples.one_memory_state) =
    [Examples.old_memory].
Proof.
  destruct (think_absorbs_failures Examples.broken_agent "hello there"
              Examples.one_memory_state Examples.one_memory_state
              (RuntimeError "perception failed") eq_refl) as (H1 & H2 & _).
  split; [exact H1 | exact H2].
Defined.

(** The two other ways in which the pipeline of the source can raise: the
    dialogue engine misses a gating trait, or the perception handed to
    [store] has no raw input.  Both end in the apology with the memories
    untouched. *)
Example think_store_keyerror :
  let mind :=
    CoreMind.mkInterface (fun _ => Ok Examples.no_perception) CoreMind.respond in
  let agent := SentimentAgent.mk "ARIA" mind SentimentAgent.initial_personality in
  fst (SentimentAgent.think_body agent "hello" Examples.one_memory_state)
    = Raise (KeyError "raw_input") /\
  fst (SentimentAgent.think agent "hello" Examples.one_memory_state)
    = Ok SentimentAgent.apology /\
  MemoryState.memories
    (memory (snd (SentimentAgent.think agent "hello" Examples.one_memory_state)))
    = [Examples.old_memory].
Proof. vm_compute. repeat split. Qed.

Example think_contemplate_keyerror :
  let s :=
    mkState (MemoryState.mk "aria_memory.json" [Examples.old_memory])
      (DialogueState.mk [] ∅) Examples.empty_world in
  let agent := fst (SentimentAgent.__init__ "ARIA" None Examples.empty_world) in
  fst (SentimentAgent.think_body agent "hello" s)
    = Raise (KeyError "introspection") /\
  fst (SentimentAgent.think agent "hello" s) = Ok SentimentAgent.apology /\
  MemoryState.memories (memory (snd (SentimentAgent.think agent "hello" s)))
    = [Examples.old_memory].
Proof. vm_compute. repeat split. Qed.

(** ** C6: a failed save *)

(** C6: when the write of the memory file fails during [store], [store]
    still returns normally, the new memory is at the end of the in-memory
    sequence, the file is not updated, and the memory is still held after
    any further conversation with the agent. *)
Theorem store_survives_save_failure
    (perception : Perception) (thoughts : list Thought.t) (response : string)
    (s : State) (raw : string) (fault : write_fault)
    (Hraw : raw_input perception = Some raw)
    (Hfault :
       faults (world s) !! MemoryState.memory_file (memory s) = Some fault) :
  exists m s',
    MemorySystem.store perception thoughts response s = (Ok tt, s') /\
    Memory.content m = "Input: " ++ raw ++ " | Response: " ++ response /\
    MemoryState.memories (memory s') =
      (MemoryState.memories (memory s) ++ [m])%list /\
    fs (world s') =
      match fault with
      | OpenFails => fs (world s)
      | DumpFails =>
          <[MemoryState.memory_file (memory s) := Garbage]> (fs (world s))
      end /\
    (forall agent questions r s'',
       converse agent questions s' = (r, s'') ->
       In m (MemoryState.memories (memory s''))).
Proof.
  rewrite store_run, Hraw. cbv zeta. rewrite Hfault.
  exists (Memory.mk ("Input: " ++ raw ++ " | Response: " ++ response)
            (wall (world s) (ticks (world s))) "episodic"
            (MemorySystem._calculate_importance perception thoughts)
            (MemorySystem._calculate_emotional_impact thoughts)
            (map Thought.content (take 2 thoughts))).
  eexists. split; [reflexivity|]. split; [reflexivity|].
  split; [reflexivity|]. split; [now destruct fault|].
  intros agent questions r s'' Hrun.
  destruct (converse_grows agent questions _ _ _ Hrun) as [tail Htail].
  rewrite Htail. cbn [memory MemoryState.memories].
  apply in_or_app. left. apply in_or_app. right. now left.
Qed.

Lemma store_survives_save_failure_witness :
  exists m s',
    MemorySystem.store
      (mkPerception (Some "good day") None None None None) [] "indeed"
      Examples.read_only_state = (Ok tt, s') /\
    Memory.content m = "Input: good day | Response: indeed" /\
    MemoryState.memories (memory s') = [Examples.old_memory; m] /\
    fs (world s') = ∅.
Proof.
  destruct (store_survives_save_failure
              (mkPerception (Some "good day") None None None None) [] "indeed"
              Examples.read_only_state "good day" OpenFails eq_refl eq_refl)
    as (m & s' & H1 & H2 & H3 & H4 & _).
  exists m, s'. repeat split; assumption.
Defined.

(** ** C2: the bound on related thoughts *)

(** C2, as stated, fails for restoration: [_load_memories] copies
    [related_thoughts] from the file as it is, so a persisted record with
    three related thoughts becomes a memory with three related thoughts. *)
Lemma restored_memory_exceeds_bound_counterexample :
  map (fun m => length (Memory.related_thoughts m))
    (MemoryState.memories
       (memory (snd (SentimentAgent.__init__ "ARIA" None
                       Examples.world_with_long_record)))) = [3%nat].
Proof. vm_compute. reflexivity. Qed.

Lemma same_store_bounded (s s' : State) :
  same_store s s' -> Spec.bounded_state s -> Spec.bounded_state s'.
Proof.
  intros (Hm & Hf & _) [H1 H2]. split.
  - now rewrite Hm.
  - intros path data. rewrite Hf. apply H2.
Qed.

Lemma to_dict_bounded (ms : list Memory.t) :
  Forall Spec.related_bounded ms ->
  Forall Spec.record_bounded (map MemorySystem.to_dict ms).
Proof.
  intros H. apply Forall_map. eapply Forall_impl; [exact H|].
  intros m Hm. exact Hm.
Qed.

Lemma of_dict_bounded (data : list MemoryDict) (ms : list Memory.t) :
  mapM MemorySystem.of_dict data = Some ms ->
  Forall Spec.record_bounded data -> Forall Spec.related_bounded ms.
Proof.
  intros Hdec. apply mapM_Some_1 in Hdec.
  induction Hdec as [|d m data ms Hd _ IH]; intros Hb.
  - constructor.
  - inversion Hb; subst. constructor; [|now apply IH].
    unfold MemorySystem.of_dict in Hd.
    destruct (DateTime.fromisoformat (d_timestamp d)) as [ts|]; [|discriminate].
    injection Hd as <-. assumption.
Qed.

Lemma store_bounded (perception : Perception) (thoughts : list Thought.t)
    (response : string) (s s' : State) (r : result unit) :
  Spec.bounded_state s ->
  MemorySystem.store perception thoughts response s = (r, s') ->
  Spec.bounded_state s'.
Proof.
  intros [Hmem Hfs]. rewrite store_run.
  destruct (raw_input perception) as [raw|]; intros [= _ <-]; [|now split].
  cbv zeta.
  set (m := Memory.mk _ _ _ _ _ _).
  assert (Hms : Forall Spec.related_bounded
                  (MemoryState.memories (memory s) ++ [m])%list).
  { apply Forall_app. split; [exact Hmem|]. constructor; [|constructor].
    unfold Spec.related_bounded, m. cbn [Memory.related_thoughts].
    rewrite length_map, length_take. lia. }
  split; [exact Hms|]. cbn [fs world]. intros path data.
  destruct (faults (world s) !! MemoryState.memory_file (memory s)) as [[|]|].
  - apply Hfs.
  - destruct (decide (MemoryState.memory_file (memory s) = path)) as [<-|Hne].
    + rewrite lookup_insert_eq. discriminate.
    + rewrite lookup_insert_ne by exact Hne. apply Hfs.
  - destruct (decide (MemoryState.memory_file (memory s) = path)) as [<-|Hne].
    + rewrite lookup_insert_eq. intros [= <-]. now apply to_dict_bounded.
    + rewrite lookup_insert_ne by exact Hne. apply Hfs.
Qed.

Lemma init_bounded (path : string) (s s' : State) (r : result unit) :
  Spec.bounded_state s ->
  MemorySystem.__init__ path s = (r, s') ->
  Spec.bounded_state s'.
Proof.
  intros [Hmem Hfs]. rewrite init_run, load_run.
  cbn [fs world memory MemoryState.memory_file dialogue].
  destruct (fs (world s) !! path) as [[|data]|] eqn:E; intros [= _ <-];
    try (split; [constructor | exact Hfs]).
  destruct (mapM MemorySystem.of_dict data) as [ms|] eqn:Hdec;
    (split; [|exact Hfs]); [|constructor].
  cbn [memory MemoryState.memories].
  eapply of_dict_bounded; [exact Hdec | exact (Hfs _ _ E)].
Qed.

(** A run of the [try] block of [think] either leaves the memory system and
    the files alone, or ends with a [store] that returned. *)
Lemma think_body_cases (agent : SentimentAgent.t) (stimulus : string)
    (s s' : State) (r : result string) :
  SentimentAgent.think_body agent stimulus s = (r, s') ->
  same_store s s' \/
  exists p ths resp s2,
    same_store s s2 /\ MemorySystem.store p ths resp s2 = (Ok tt, s').
Proof.
  unfold SentimentAgent.think_body, bind at 1, lift.
  destruct (CoreMind.i_perceive (SentimentAgent.mind agent) stimulus) as [p|e0];
    [|intros [= _ <-]; left; reflexivity].
  unfold bind at 1, MemorySystem.recall at 1, bind at 1, get, ret.
  unfold bind at 1.
  destruct (InternalDialogue.contemplate p _ (SentimentAgent.personality agent) s)
    as [[ths|e1] s2] eqn:Hc;
    pose proof (contemplate_same_store _ _ _ _ _ _ Hc) as Hs2;
    [|intros [= _ <-]; now left].
  unfold bind at 1.
  destruct (CoreMind.i_respond (SentimentAgent.mind agent) ths) as [resp|e2];
    [|intros [= _ <-]; now left].
  unfold bind at 1.
  destruct (MemorySystem.store p ths resp s2) as [[[]|e3] s3] eqn:Hst.
  - intros [= _ <-]. right. now exists p, ths, resp, s2.
  - intros [= _ <-]. left. rewrite store_run in Hst.
    destruct (raw_input p); [discriminate|]. now injection Hst as _ <-.
Qed.

Lemma think_bounded (agent : SentimentAgent.t) (stimulus : string)
    (s s' : State) (r : result string) :
  Spec.bounded_state s ->
  SentimentAgent.think agent stimulus s = (r, s') ->
  Spec.bounded_state s'.
Proof.
  intros Hs. unfold SentimentAgent.think, try_except.
  destruct (SentimentAgent.think_body agent stimulus s) as [[resp|e] s1] eqn:Hb;
    intros [= _ <-];
    (destruct (think_body_cases _ _ _ _ _ Hb)
       as [Hsame | (p & ths & resp' & s2 & Hsame & Hst)];
     [ now apply (same_store_bounded s)
     | eapply store_bounded; [|exact Hst]; now apply (same_store_bounded s) ]).
Qed.

(** C2 (amended): [store] creates a memory with at most 2 related thoughts
    and keeps the bound on all memories and on every persisted document;
    restoration at construction and [think] keep it too, provided the
    documents on disk obey the bound, as every document written by the
    store does. *)
Theorem related_thoughts_bounded (s : State) (Hs : Spec.bounded_state s) :
  (forall perception thoughts response r s',
     MemorySystem.store perception thoughts response s = (r, s') ->
     Spec.bounded_state s') /\
  (forall path r s',
     MemorySystem.__init__ path s = (r, s') -> Spec.bounded_state s') /\
  (forall agent stimulus r s',
     SentimentAgent.think agent stimulus s = (r, s') -> Spec.bounded_state s').
Proof.
  split; [|split].
  - intros perception thoughts response r s'. now apply store_bounded.
  - intros path r s'. now apply init_bounded.
  - intros agent stimulus r s'. now apply think_bounded.
Qed.

Lemma related_thoughts_bounded_witness :
  Spec.bounded_state
    (snd (MemorySystem.store
            (mkPerception (Some "good day") None None None None)
            [Examples.doubtful; Examples.doubtful; Examples.doubtful]
            "indeed" Examples.one_memory_state)) /\
  Spec.bounded_state
    (snd (MemorySystem.__init__ "aria_memory.json" Examples.one_memory_state)).
Proof.
  assert (Hs : Spec.bounded_state Examples.one_memory_state).
  { split.
    - repeat constructor.
    - intros path data H. cbn [Examples.one_memory_state fs world Examples.empty_world] in H.
      rewrite lookup_empty in H. discriminate. }
  destruct (related_thoughts_bounded Examples.one_memory_state Hs)
    as (Hstore & Hinit & _).
  split.
  - eapply Hstore. apply surjective_pairing.
  - eapply Hinit. apply surjective_pairing.
Defined.

(** ** ISO-8601 text of a timestamp *)

Lemma digit_val_digit_char (d : N) :
  (d < 10)%N -> DateTime.digit_val (DateTime.digit_char d) = Some d.
Proof.
  intros H.
  assert (Hd : In d [0; 1; 2; 3; 4; 5; 6; 7; 8; 9]%N).
  { destruct d as [|p]; [now left|].
    do 10 (destruct p as [p|p|]; try lia; simpl; auto 11). }
  simpl in Hd.
  repeat (destruct Hd as [<-|Hd]; [reflexivity|]). destruct Hd.
Qed.

Lemma append_String (c : ascii) (s r : string) :
  String c s ++ r = String c (s ++ r).
Proof. reflexivity. Qed.

Lemma append_sep (c : ascii) (r : string) :
  String c "" ++ r = String c r.
Proof. reflexivity. Qed.

Lemma read_zpad (w : nat) (acc n : N) (rest : string) :
  DateTime.read_digits w acc (DateTime.zpad w n ++ rest) =
  Some ((acc * 10 ^ N.of_nat w + n mod 10 ^ N.of_nat w)%N, rest).
Proof.
  revert acc. induction w as [|w IH]; intros acc.
  - simpl. rewrite N.mod_1_r. do 2 f_equal. lia.
  - cbn [DateTime.zpad]. rewrite append_String. cbn [DateTime.read_digits].
    rewrite digit_val_digit_char by (apply N.mod_lt; lia).
    cbn [mbind option_bind]. rewrite IH. do 2 f_equal.
    rewrite Nat2N.inj_succ, N.pow_succ_r'.
    rewrite (N.mul_comm 10 (10 ^ N.of_nat w)).
    rewrite (N.Div0.mod_mul_r n (10 ^ N.of_nat w) 10).
    lia.
Qed.

Lemma read_zpad_end (w : nat) (n : N) :
  DateTime.read_digits w 0 (DateTime.zpad w n) =
  Some ((n mod 10 ^ N.of_nat w)%N, "").
Proof.
  assert (H : forall s : string, s ++ "" = s).
  { induction s as [|c s IH]; [reflexivity | now rewrite append_String, IH]. }
  rewrite <- (H (DateTime.zpad w n)) at 1. rewrite read_zpad. do 2 f_equal.
Qed.

Lemma length_zpad (w : nat) (n : N) : String.length (DateTime.zpad w n) = w.
Proof. induction w as [|w IH]; simpl; [reflexivity | now rewrite IH]. Qed.

Lemma parse_fraction_iso (us : N) :
  (us < 1000000)%N ->
  DateTime.parse_fraction
    (if (us =? 0)%N then "" else "." ++ DateTime.zpad 6 us) = Some us.
Proof.
  intros H. destruct (N.eqb_spec us 0) as [->|Hne]; [reflexivity|].
  change ("." ++ DateTime.zpad 6 us) with (String "." (DateTime.zpad 6 us)).
  unfold DateTime.parse_fraction.
  change (Ascii.eqb "." ".") with true. cbv iota.
  rewrite length_zpad. change (6 =? 3)%nat with false. change (6 =? 6)%nat with true.
  cbv iota. rewrite read_zpad_end. cbn [mbind option_bind].
  f_equal. apply N.mod_small. exact H.
Qed.

Lemma parse_time_iso (h mi se us : N) :
  (h < 100)%N -> (mi < 100)%N -> (se < 100)%N -> (us < 1000000)%N ->
  DateTime.parse_time
    (DateTime.zpad 2 h ++ ":" ++ DateTime.zpad 2 mi ++ ":" ++
     DateTime.zpad 2 se ++
     (if (us =? 0)%N then "" else "." ++ DateTime.zpad 6 us))
  = Some (h, mi, se, us).
Proof.
  intros Hh Hmi Hse Hus. unfold DateTime.parse_time.
  rewrite read_zpad. cbn [mbind option_bind].
  rewrite append_sep. cbn [DateTime.expect].
  change (Ascii.eqb ":" ":") with true. cbv iota. cbn [mbind option_bind].
  rewrite read_zpad. cbn [mbind option_bind].
  rewrite append_sep. cbn [DateTime.expect].
  change (Ascii.eqb ":" ":") with true. cbv iota. cbn [mbind option_bind].
  rewrite read_zpad. cbn [mbind option_bind].
  rewrite parse_fraction_iso by exact Hus. cbn [mbind option_bind].
  change (10 ^ N.of_nat 2)%N with 100%N.
  rewrite N.mul_0_l, !N.add_0_l, !N.mod_small by assumption.
  reflexivity.
Qed.

(** Parsing the ISO-8601 text of a valid timestamp gives the timestamp
    back. *)
Lemma fromisoformat_isoformat (d : DateTime.t) :
  DateTime.valid d = true ->
  DateTime.fromisoformat (DateTime.isoformat d) = Some d.
Proof.
  intros Hv. pose proof Hv as Hv'.
  unfold DateTime.valid in Hv'.
  repeat (apply andb_true_iff in Hv' as [Hv' ?]).
  repeat match goal with
         | H : (_ <=? _)%N = true |- _ => apply N.leb_le in H
         | H : (_ <? _)%N = true |- _ => apply N.ltb_lt in H
         end.
  assert (Hday : (DateTime.day d <= 31)%N).
  { unfold DateTime.days_in_month in *.
    destruct (DateTime.month d) as [|[[[|[]|]|[[]|[]|]|]|[[[]|[]|]|[[]|[]|]|]|]];
      try destruct (DateTime.is_leap _); lia. }
  unfold DateTime.fromisoformat, DateTime.isoformat.
  rewrite read_zpad. cbn [mbind option_bind].
  rewrite append_sep. cbn [DateTime.expect].
  change (Ascii.eqb "-" "-") with true. cbv iota. cbn [mbind option_bind].
  rewrite read_zpad. cbn [mbind option_bind].
  rewrite append_sep. cbn [DateTime.expect].
  change (Ascii.eqb "-" "-") with true. cbv iota. cbn [mbind option_bind].
  rewrite read_zpad. cbn [mbind option_bind].
  rewrite append_sep.
  change (DateTime.zpad 2 (DateTime.hour d))
    with (String (DateTime.digit_char ((DateTime.hour d / 10 ^ N.of_nat 1) mod 10))
            (DateTime.zpad 1 (DateTime.hour d))).
  rewrite (append_String _ (DateTime.zpad 1 (DateTime.hour d))).
  cbn [DateTime.parse_after_date].
  rewrite <- (append_String _ (DateTime.zpad 1 (DateTime.hour d))).
  change (String (DateTime.digit_char ((DateTime.hour d / 10 ^ N.of_nat 1) mod 10))
            (DateTime.zpad 1 (DateTime.hour d)))
    with (DateTime.zpad 2 (DateTime.hour d)).
  rewrite parse_time_iso by lia. cbn [mbind option_bind].
  change (10 ^ N.of_nat 4)%N with 10000%N. change (10 ^ N.of_nat 2)%N with 100%N.
  rewrite N.mul_0_l, !N.add_0_l, !N.mod_small by lia.
  destruct d as [y mo dd h mi se us]. cbn [DateTime.year DateTime.month
    DateTime.day DateTime.hour DateTime.minute DateTime.second
    DateTime.microsecond] in *.
  now rewrite Hv.
Qed.

Example isoformat_with_microseconds :
  DateTime.isoformat (DateTime.mk 2024 2 29 13 5 9 120123) =
    "2024-02-29T13:05:09.120123" /\
  DateTime.isoformat (DateTime.mk 987 12 31 23 59 59 0) =
    "0987-12-31T23:59:59".
Proof. split; reflexivity. Qed.

Example fromisoformat_rejects_invalid_dates :
  DateTime.fromisoformat "2023-02-29T10:00:00" = None /\
  DateTime.fromisoformat "yesterday" = None /\
  DateTime.fromisoformat "2024-02-29T10:00:00.5" = None.
Proof. repeat split; reflexivity. Qed.

(** ** C7: save followed by load *)

Lemma of_dict_to_dict (m : Memory.t) :
  DateTime.valid (Memory.timestamp m) = true ->
  MemorySystem.of_dict (MemorySystem.to_dict m) = Some m.
Proof.
  intros Hv. unfold MemorySystem.of_dict, MemorySystem.to_dict.
  cbn [d_timestamp d_content d_memory_type d_importance d_emotional_impact
       d_related_thoughts].
  rewrite fromisoformat_isoformat by exact Hv. cbn [mbind option_bind].
  now destruct m.
Qed.

Lemma decode_encode (ms : list Memory.t) :
  Forall (fun m => DateTime.valid (Memory.timestamp m) = true) ms ->
  mapM MemorySystem.of_dict (map MemorySystem.to_dict ms) = Some ms.
Proof.
  intros H. apply mapM_Some_2.
  induction H as [|m ms Hm _ IH]; simpl; constructor.
  - now apply of_dict_to_dict.
  - exact IH.
Qed.

(** C7: when the write succeeds, saving the memories of a store and then
    constructing a memory system on the same path yields the very same
    sequence of memories: as many of them, every field equal, and the
    timestamps, which went through [isoformat] and [fromisoformat], compare
    equal. *)
Theorem save_then_load_roundtrip (s : State)
    (Hwrite :
       faults (world s) !! MemoryState.memory_file (memory s) = None)
    (Hvalid :
       Forall (fun m => DateTime.valid (Memory.timestamp m) = true)
         (MemoryState.memories (memory s))) :
  let path := MemoryState.memory_file (memory s) in
  let saved := snd (MemorySystem._save_memories s) in
  let loaded := snd (MemorySystem.__init__ path saved) in
  fs (world saved) !! path =
    Some (Document (map MemorySystem.to_dict (MemoryState.memories (memory s)))) /\
  MemoryState.memories (memory loaded) = MemoryState.memories (memory s) /\
  length (MemoryState.memories (memory loaded)) =
    length (MemoryState.memories (memory s)) /\
  Forall2
    (fun a b => DateTime.eqb (Memory.timestamp a) (Memory.timestamp b) = true)
    (MemoryState.memories (memory loaded)) (MemoryState.memories (memory s)).
Proof.
  intros path saved loaded.
  assert (Hdisk : fs (world saved) !! path =
                  Some (Document (map MemorySystem.to_dict
                                    (MemoryState.memories (memory s))))).
  { subst saved path. rewrite save_run. cbv zeta. cbn [snd world fs].
    rewrite Hwrite. apply lookup_insert_eq. }
  assert (Hload : MemoryState.memories (memory loaded) =
                  MemoryState.memories (memory s)).
  { subst loaded. rewrite init_run, load_run.
    cbn [snd fs world memory MemoryState.memory_file dialogue].
    rewrite Hdisk, decode_encode by exact Hvalid. reflexivity. }
  split; [exact Hdisk|]. split; [exact Hload|]. split; [now rewrite Hload|].
  rewrite Hload. apply Forall2_same_length_lookup_2; [reflexivity|].
  intros i a b Ha Hb. rewrite Ha in Hb. injection Hb as <-.
  now apply datetime_eqb_eq.
Qed.

Lemma save_then_load_roundtrip_witness :
  MemoryState.memories
    (memory
       (snd (MemorySystem.__init__ "aria_memory.json"
               (snd (MemorySystem._save_memories Examples.one_memory_state)))))
  = [Examples.old_memory].
Proof.
  refine (proj1 (proj2 (save_then_load_roundtrip Examples.one_memory_state
                          eq_refl _))).
  repeat constructor.
Defined.

(** ** Further properties of the pipeline *)

(** Case analysis on a disjunction of stage failures. *)
Ltac back_stage Hrecall :=
  repeat match goal with
         | H : _ \/ _ |- _ => destruct H
         | H : exists _, _ |- _ => destruct H
         | H : _ /\ _ |- _ => destruct H
         end;
  repeat match goal with
         | H : MemorySystem.recall _ _ = _ |- _ => rewrite Hrecall in H
         end;
  simplify_eq; try reflexivity; try congruence.

(** The [try] block of [think] raises exactly when one of its stages
    raises; [recall] never does. *)
Lemma think_body_raises_iff (agent : SentimentAgent.t) (stimulus : string)
    (s s1 : State) (e : exn) :
  SentimentAgent.think_body agent stimulus s = (Raise e, s1) <->
  (CoreMind.i_perceive (SentimentAgent.mind agent) stimulus = Raise e /\ s1 = s) \/
  (exists p,
     CoreMind.i_perceive (SentimentAgent.mind agent) stimulus = Ok p /\
     exists mems, MemorySystem.recall p s = (Ok mems, s) /\
     (InternalDialogue.contemplate p mems (SentimentAgent.personality agent) s
        = (Raise e, s1) \/
      exists ths s2,
        InternalDialogue.contemplate p mems (SentimentAgent.personality agent) s
          = (Ok ths, s2) /\
        ((CoreMind.i_respond (SentimentAgent.mind agent) ths = Raise e /\ s1 = s2) \/
         exists resp,
           CoreMind.i_respond (SentimentAgent.mind agent) ths = Ok resp /\
           MemorySystem.store p ths resp s2 = (Raise e, s1)))).
Proof.
  assert (Hrecall : forall p, MemorySystem.recall p s =
            (Ok (MemorySystem.recall_from p (MemoryState.memories (memory s))), s))
    by reflexivity.
  unfold SentimentAgent.think_body, bind at 1, lift.
  destruct (CoreMind.i_perceive (SentimentAgent.mind agent) stimulus)
    as [p|e0] eqn:Hp.
  - unfold bind at 1. rewrite Hrecall. unfold bind at 1.
    destruct (InternalDialogue.contemplate p _ (SentimentAgent.personality agent) s)
      as [[ths|e1] s2] eqn:Hc.
    + unfold bind at 1.
      destruct (CoreMind.i_respond (SentimentAgent.mind agent) ths)
        as [resp|e2] eqn:Hr.
      * unfold bind at 1.
        destruct (MemorySystem.store p ths resp s2) as [[[]|e3] s3] eqn:Hst.
        -- split; [discriminate|]. intros H.
           back_stage Hrecall.
        -- split.
           ++ intros [= <- <-]. right. exists p. split; [reflexivity|].
              eexists. split; [reflexivity|]. right. exists ths, s2.
              split; [exact Hc|]. right. now exists resp.
           ++ intros H.
              back_stage Hrecall.
      * split.
        -- intros [= <- <-]. right. exists p. split; [reflexivity|].
           eexists. split; [reflexivity|]. right. exists ths, s2.
           split; [exact Hc|]. now left.
        -- intros H.
           back_stage Hrecall.
    + split.
      * intros [= <- <-]. right. exists p. split; [reflexivity|].
        eexists. split; [reflexivity|]. now left.
      * intros H.
        back_stage Hrecall.
  - split.
    + intros [= <- <-]. now left.
    + intros H.
      back_stage Hrecall.
Qed.

(** Every thought that [contemplate] returns has a confidence between 0.6
    and 0.9. *)
Lemma contemplate_confidence {P : Type} (perception : Perception)
    (memories : list Memory.t) (personality : P) (s s' : State)
    (ths : list Thought.t) :
  InternalDialogue.contemplate perception memories personality s = (Ok ths, s') ->
  Forall (fun t => (0.6 <= Thought.confidence t)%Q /\
                   (Thought.confidence t <= 0.9)%Q) ths.
Proof.
  destruct s as [mem [history traits] [files flt wl tk]].
  unfold InternalDialogue.contemplate, InternalDialogue._generate_initial_reaction.
  destruct (default "statement" (question_type perception) =? "philosophical")%string;
    [|destruct (default "statement" (question_type perception) =? "inquiry")%string];
    (destruct memories as [|m0 ms];
     (destruct (traits !! "introspection") as [i|] eqn:Hi;
      [destruct (Py.gt i 0.7) eqn:Ei|]);
     (destruct (traits !! "curiosity") as [c|] eqn:Hc;
      [destruct (Py.gt c 0.6) eqn:Ec|]);
     run_M; intros [= <- _]; repeat constructor; discriminate).
Qed.

(** On what the pipeline itself produces, a perception of [perceive] and
    the thoughts of [contemplate], the importance lies in [0, 1]. *)
Lemma pipeline_importance_in_unit_interval {P : Type} (stimulus : string)
    (p : Perception) (memories : list Memory.t) (personality : P)
    (s s' : State) (ths : list Thought.t) :
  CoreMind.perceive stimulus = Ok p ->
  InternalDialogue.contemplate p memories personality s = (Ok ths, s') ->
  (0 <= MemorySystem._calculate_importance p ths)%Q /\
  (MemorySystem._calculate_importance p ths <= 1)%Q.
Proof.
  intros [= <-] Hc. split; [|apply importance_le_1].
  unfold MemorySystem._calculate_importance.
  apply min2_ge; [|discriminate].
  assert (Hconf : (0 <= Py.max_default (map Thought.confidence ths) 0)%Q).
  { apply max_default_nonneg, Forall_map.
    eapply Forall_impl; [exact (contemplate_confidence _ _ _ _ _ _ Hc)|].
    intros t [H _]. cbn beta. eapply Qle_trans; [|exact H]. discriminate. }
  assert (He : (0 <= Py.max_default
                  (map (fun t => Qabs (Thought.emotional_valence t)) ths) 0)%Q).
  { apply max_default_nonneg. apply Forall_map, List.Forall_forall.
    intros t _. apply Qabs_nonneg. }
  cbn [complexity default].
  assert (Hcx : (0 <= inject_Z (Z.of_nat (length (Py.split stimulus))) / 10)%Q).
  { apply Qle_shift_div_l; [reflexivity|]. rewrite Qmult_0_l.
    change 0%Q with (inject_Z 0). rewrite <- Zle_Qle. lia. }
  assert (H3 : (0 <= 0.3)%Q) by discriminate.
  assert (H4 : (0 <= 0.4)%Q) by discriminate.
  pose proof (Qmult_le_0_compat _ _ Hcx H3).
  pose proof (Qmult_le_0_compat _ _ Hconf H4).
  pose proof (Qmult_le_0_compat _ _ He H3).
  replace 0%Q with (0 + 0 + 0)%Q by reflexivity.
  repeat apply Qplus_le_compat; assumption.
Qed.

(** Three matching memories and one that does not match: the result is
    ordered by importance, the tie between the two memories of importance
    0.5 goes to the later one, and the non-matching memory is left out. *)
Example recall_orders_by_importance_then_recency :
  let at_second n := DateTime.mk 2024 1 1 0 0 n 0 in
  let m1 := Memory.mk "Input: wonderful day" (at_second 1%N) "episodic" 0.5 0 [] in
  let m2 := Memory.mk "Input: WONDERFUL night" (at_second 2%N) "episodic" 0.5 0 [] in
  let m3 := Memory.mk "Input: a wonderful week" (at_second 0%N) "episodic" 0.9 0 [] in
  let m4 := Memory.mk "Input: wonderfully odd" (at_second 3%N) "episodic" 1 0 [] in
  let p := mkPerception (Some "wonderful") None (Some ["wonderful"]) None None in
  MemorySystem.recall_from p [m1; m2; m3; m4] = [m3; m2; m1].
Proof. reflexivity. Qed.

(** * Further properties of the code *)

(** ** Lower-casing and splitting *)

Lemma lower_char_idem (c : ascii) : Py.lower_char (Py.lower_char c) = Py.lower_char c.
Proof. destruct c as [[] [] [] [] [] [] [] []]; reflexivity. Qed.

Lemma is_whitespace_lower_char (c : ascii) :
  Py.is_whitespace (Py.lower_char c) = Py.is_whitespace c.
Proof. destruct c as [[] [] [] [] [] [] [] []]; reflexivity. Qed.

Lemma lower_idem (s : string) : Py.lower (Py.lower s) = Py.lower s.
Proof.
  induction s as [|c s IH]; simpl; [reflexivity|].
  now rewrite lower_char_idem, IH.
Qed.

Lemma lower_app (a b : string) : Py.lower (a ++ b) = Py.lower a ++ Py.lower b.
Proof.
  induction a as [|c a IH]; [reflexivity|].
  rewrite append_String. cbn [Py.lower]. now rewrite IH, append_String.
Qed.

Lemma lower_string_of_list (l : list ascii) :
  Py.lower (string_of_list_ascii l) = string_of_list_ascii (map Py.lower_char l).
Proof. induction l as [|c l IH]; simpl; [reflexivity | now rewrite IH]. Qed.

Lemma split_go_lower (cur : list ascii) (s : string) :
  Py.split_go (map Py.lower_char cur) (Py.lower s) =
  map Py.lower (Py.split_go cur s).
Proof.
  revert cur. induction s as [|c s IH]; intros cur; simpl.
  - destruct cur as [|a cur]; [reflexivity|]. simpl.
    now rewrite lower_string_of_list, map_app, map_rev.
  - rewrite is_whitespace_lower_char. destruct (Py.is_whitespace c).
    + destruct cur as [|a cur]; simpl.
      * apply (IH []).
      * rewrite lower_string_of_list, map_app, map_rev. f_equal. apply (IH []).
    + apply (IH (c :: cur)).
Qed.

(** Splitting commutes with lower-casing. *)
Lemma split_lower (s : string) : Py.split (Py.lower s) = map Py.lower (Py.split s).
Proof. apply (split_go_lower []). Qed.

Lemma filter_sublist {A} (f : A -> bool) (l : list A) :
  sublist (List.filter f l) l.
Proof.
  induction l as [|a l IH]; simpl; [constructor|].
  destruct (f a); [now apply sublist_skip | now apply sublist_cons].
Qed.

(** ** Key concepts *)

(** X1: [_extract_concepts] returns at most 5 tokens of the lower-cased text, in
    the order of the text; each is longer than 4 characters and already in
    lower case; the list is empty exactly when the text has no token longer
    than 4 characters. *)
Theorem extract_concepts_spec (text : string) :
  let concepts := CoreMind._extract_concepts text in
  (length concepts <= 5)%nat /\
  sublist concepts (Py.split (Py.lower text)) /\
  Forall (fun c => (4 < String.length c)%nat /\ Py.lower c = c) concepts /\
  (concepts = [] <->
   forall w, In w (Py.split (Py.lower text)) -> (String.length w <= 4)%nat).
Proof.
  intros concepts. subst concepts. unfold CoreMind._extract_concepts.
  split; [rewrite length_take; lia|]. split.
  - etransitivity; [apply sublist_take | apply filter_sublist].
  - split.
    + apply List.Forall_forall. intros c Hc.
      apply take_In, filter_In in Hc as [Hin Hlen].
      split; [now apply Nat.ltb_lt|].
      rewrite split_lower in Hin. apply in_map_iff in Hin as (w & <- & _).
      apply lower_idem.
    + set (l := List.filter _ _). split.
      * intros Hnil w Hw.
        assert (Hl : l = []) by (destruct l; [reflexivity | discriminate]).
        destruct (Nat.ltb_spec 4 (String.length w)) as [Hlt|Hle]; [|exact Hle].
        assert (Hin : In w l) by (apply filter_In; split; [exact Hw | now apply Nat.ltb_lt]).
        rewrite Hl in Hin. destruct Hin.
      * intros Hall.
        replace l with (@nil string); [reflexivity|].
        symmetry. apply filter_nil_iff. intros w Hw. apply Nat.ltb_ge. now apply Hall.
Qed.

(** ** Case-insensitive perception *)

Lemma startswith_question_lower (s : string) (q : ascii) :
  (forall c, Ascii.eqb q (Py.lower_char c) = Ascii.eqb q c) ->
  Py.contains (String q "") (Py.lower s) = Py.contains (String q "") s.
Proof.
  intros Hq. induction s as [|c s IH]; [reflexivity|].
  cbn [Py.lower].
  change (Py.contains (String q "") (String (Py.lower_char c) (Py.lower s)))
    with (Ascii.eqb q (Py.lower_char c) && true || Py.contains (String q "") (Py.lower s)).
  change (Py.contains (String q "") (String c s))
    with (Ascii.eqb q c && true || Py.contains (String q "") s).
  now rewrite Hq, IH.
Qed.

Lemma question_mark_lower (s : string) :
  Py.contains "?" (Py.lower s) = Py.contains "?" s.
Proof.
  apply startswith_question_lower.
  intros c. destruct c as [[] [] [] [] [] [] [] []]; reflexivity.
Qed.

(** X2: Two stimuli that differ only in letter case are perceived alike: same
    detected emotion, key concepts, question type and complexity; only the
    raw input kept in the perception differs. *)
Theorem perceive_case_insensitive (a b : string)
    (Hcase : Py.lower a = Py.lower b) :
  exists pa pb,
    CoreMind.perceive a = Ok pa /\ CoreMind.perceive b = Ok pb /\
    raw_input pa = Some a /\ raw_input pb = Some b /\
    detected_emotion pa = detected_emotion pb /\
    key_concepts pa = key_concepts pb /\
    question_type pa = question_type pb /\
    complexity pa = complexity pb.
Proof.
  do 2 eexists. split; [reflexivity|]. split; [reflexivity|].
  cbn [raw_input detected_emotion key_concepts question_type complexity].
  split; [reflexivity|]. split; [reflexivity|].
  unfold CoreMind._analyze_emotion, CoreMind._extract_concepts,
    CoreMind._classify_question.
  rewrite <- (question_mark_lower a), <- (question_mark_lower b), Hcase.
  repeat split.
  assert (Hlen : length (Py.split a) = length (Py.split b)).
  { rewrite <- (length_map Py.lower (Py.split a)), <- (length_map Py.lower (Py.split b)).
    now rewrite <- !split_lower, Hcase. }
  now rewrite Hlen.
Qed.

Lemma perceive_case_insensitive_witness :
  exists pa pb,
    CoreMind.perceive "What a WONDERFUL day?" = Ok pa /\
    CoreMind.perceive "what a wonderful DAY?" = Ok pb /\
    raw_input pa = Some "What a WONDERFUL day?" /\
    raw_input pb = Some "what a wonderful DAY?" /\
    detected_emotion pa = detected_emotion pb /\
    key_concepts pa = key_concepts pb /\
    question_type pa = question_type pb /\
    complexity pa = complexity pb.
Proof.
  apply (perceive_case_insensitive "What a WONDERFUL day?" "what a wonderful DAY?").
  reflexivity.
Defined.

(** ** Blank stimuli *)

Lemma blank_cons (c : ascii) (s : string) :
  Spec.blank (String c s) <-> Py.is_whitespace c = true /\ Spec.blank s.
Proof.
  unfold Spec.blank. simpl. split.
  - intros H. inversion H; subst. now split.
  - intros [Hc Hs]. now constructor.
Qed.

Lemma lower_char_whitespace (c : ascii) :
  Py.is_whitespace c = true -> Py.lower_char c = c.
Proof. destruct c as [[] [] [] [] [] [] [] []]; intros H; try discriminate H; reflexivity. Qed.

Lemma lower_blank (s : string) : Spec.blank s -> Py.lower s = s.
Proof.
  induction s as [|c s IH]; [reflexivity|].
  intros [Hc Hs]%blank_cons. simpl. now rewrite lower_char_whitespace, IH.
Qed.

Lemma split_blank (s : string) : Spec.blank s -> Py.split s = [].
Proof.
  unfold Py.split. induction s as [|c s IH]; [reflexivity|].
  intros [Hc Hs]%blank_cons. simpl. rewrite Hc. now apply IH.
Qed.

Lemma contains_blank (a : ascii) (n s : string) :
  Py.is_whitespace a = false -> Spec.blank s ->
  Py.contains (String a n) s = false.
Proof.
  intros Ha. induction s as [|c s IH]; [reflexivity|].
  intros [Hc Hs]%blank_cons.
  change (Py.contains (String a n) (String c s))
    with (Ascii.eqb a c && Py.startswith n s || Py.contains (String a n) s).
  rewrite (IH Hs), orb_false_r.
  destruct (Ascii.eqb_spec a c) as [->|Hne]; [congruence | reflexivity].
Qed.

(** X3: A stimulus made of whitespace only (the empty stimulus included) is
    perceived as a neutral statement without key concepts and of complexity
    zero. *)
Theorem perceive_blank (stimulus : string) (Hblank : Spec.blank stimulus) :
  exists p c,
    CoreMind.perceive stimulus = Ok p /\
    raw_input p = Some stimulus /\
    detected_emotion p = Some "neutral" /\
    key_concepts p = Some [] /\
    question_type p = Some "statement" /\
    complexity p = Some c /\ (c == 0)%Q.
Proof.
  do 2 eexists. split; [reflexivity|].
  cbn [raw_input detected_emotion key_concepts question_type complexity].
  split; [reflexivity|].
  unfold CoreMind._analyze_emotion, CoreMind._extract_concepts,
    CoreMind._classify_question, CoreMind.count_in,
    CoreMind.positive_words, CoreMind.negative_words.
  rewrite (lower_blank _ Hblank), (split_blank _ Hblank).
  cbn [List.filter].
  rewrite !(contains_blank _ _ stimulus) by (reflexivity || exact Hblank).
  repeat split; reflexivity.
Qed.

Lemma perceive_blank_witness :
  exists p c,
    CoreMind.perceive "   " = Ok p /\
    raw_input p = Some "   " /\
    detected_emotion p = Some "neutral" /\
    key_concepts p = Some [] /\
    question_type p = Some "statement" /\
    complexity p = Some c /\ (c == 0)%Q.
Proof.
  apply (perceive_blank "   "). repeat constructor.
Defined.

(** ** The emotional impact of an interaction *)

Lemma fold_left_Qplus_bounds (lo hi : Q) (vs : list Q) (acc : Q) :
  Forall (fun v => (lo <= v)%Q /\ (v <= hi)%Q) vs ->
  (acc + inject_Z (Z.of_nat (length vs)) * lo <= fold_left Qplus vs acc)%Q /\
  (fold_left Qplus vs acc <= acc + inject_Z (Z.of_nat (length vs)) * hi)%Q.
Proof.
  intros H. revert acc. induction H as [|v vs [Hlo Hhi] _ IH]; intros acc.
  - cbn [fold_left length]. change (inject_Z (Z.of_nat 0)) with 0%Q. split; lra.
  - cbn [fold_left length]. destruct (IH (acc + v)%Q) as [IH1 IH2].
    rewrite Nat2Z.inj_succ, <- Z.add_1_r, inject_Z_plus.
    change (inject_Z 1) with 1%Q. split; lra.
Qed.

(** The mean of a non-empty list of numbers lies between any two bounds of
    its elements. *)
Lemma mean_between (lo hi : Q) (vs : list Q) :
  vs <> [] ->
  Forall (fun v => (lo <= v)%Q /\ (v <= hi)%Q) vs ->
  (lo <= Py.sum vs / inject_Z (Z.of_nat (length vs)))%Q /\
  (Py.sum vs / inject_Z (Z.of_nat (length vs)) <= hi)%Q.
Proof.
  intros Hne Hvs.
  destruct (fold_left_Qplus_bounds lo hi vs 0 Hvs) as [H1 H2].
  fold (Py.sum vs) in H1, H2.
  assert (Hn : (0 < inject_Z (Z.of_nat (length vs)))%Q).
  { change 0%Q with (inject_Z 0). rewrite <- Zlt_Qlt.
    destruct vs; [congruence | simpl; lia]. }
  split.
  - apply Qle_shift_div_l; [exact Hn | lra].
  - apply Qle_shift_div_r; [exact Hn | lra].
Qed.



(** ** The accessor of recent thoughts *)

Lemma recent_thoughts_positive (limit : Z) (s : State) :
  (0 < limit)%Z ->
  InternalDialogue.get_recent_thoughts limit s =
  (Ok (drop (length (DialogueState.thoughts (dialogue s)) - Z.to_nat limit)
         (DialogueState.thoughts (dialogue s))), s).
Proof.
  intros Hpos. unfold InternalDialogue.get_recent_thoughts, bind, get, ret.
  destruct (DialogueState.thoughts (dialogue s)) as [|t ths] eqn:E; [reflexivity|].
  unfold Py.slice_from. set (h := t :: ths).
  destruct (Z.ltb_spec (- limit) 0) as [_|?]; [|lia].
  assert (Hi : Z.to_nat (Z.max 0 (Z.of_nat (length h) + - limit)) =
               (length h - Z.to_nat limit)%nat) by lia.
  now rewrite Hi.
Qed.

(** X5: [get_recent_thoughts] changes nothing and returns a suffix of the
    history: for a positive limit the last [limit] thoughts (all of them
    when there are fewer), for a negative limit the history without its first
    [-limit] thoughts, and for limit 0 the whole history, since [-0] is the
    start of the list. *)
Theorem get_recent_thoughts_suffix (limit : Z) (s : State) :
  let history := DialogueState.thoughts (dialogue s) in
  exists recent,
    InternalDialogue.get_recent_thoughts limit s = (Ok recent, s) /\
    recent `suffix_of` history /\
    ((0 < limit)%Z ->
       recent = drop (length history - Z.to_nat limit) history /\
       length recent = Nat.min (Z.to_nat limit) (length history)) /\
    (limit = 0%Z -> recent = history) /\
    ((limit < 0)%Z -> recent = drop (Z.to_nat (- limit)) history).
Proof.
  intros history. subst history.
  unfold InternalDialogue.get_recent_thoughts, bind, get, ret.
  destruct (DialogueState.thoughts (dialogue s)) as [|t ths] eqn:E.
  - exists []. split; [reflexivity|]. split; [reflexivity|].
    repeat split; intros; rewrite ?drop_nil; simpl; try reflexivity; lia.
  - exists (Py.slice_from (- limit) (t :: ths)). split; [reflexivity|].
    unfold Py.slice_from. set (h := t :: ths).
    split; [apply suffix_drop|].
    split; [|split].
    + intros Hpos. destruct (Z.ltb_spec (- limit) 0) as [_|?]; [|lia].
      assert (Hi : Z.to_nat (Z.max 0 (Z.of_nat (length h) + - limit)) =
                   (length h - Z.to_nat limit)%nat) by lia.
      rewrite Hi. split; [reflexivity|]. rewrite length_drop. lia.
    + intros ->. reflexivity.
    + intros Hneg. destruct (Z.ltb_spec (- limit) 0) as [?|_]; [lia|].
      destruct (Z.min_spec (- limit) (Z.of_nat (length h))) as [[_ ->]|[Hge ->]];
        [reflexivity|].
      rewrite Nat2Z.id, drop_all. symmetry. apply drop_ge. lia.
Qed.

(** ** What a deliberation cycle changes *)

#[global] Instance stable_preorder : PreOrder Spec.stable.
Proof.
  split.
  - intros s. now repeat split.
  - intros a b c (H1 & H2 & H3 & H4 & H5) (H1' & H2' & H3' & H4' & H5').
    repeat split; congruence.
Qed.

Lemma stable_same_store (s s' : State) : Spec.stable s s' -> same_store s s'.
Proof. intros (H1 & H2 & H3 & _). now repeat split. Qed.

(** A returning [contemplate] appends the thoughts it returns to the history
    of the engine, reads the clock once per thought, and changes nothing
    else. *)
Lemma contemplate_ok {P : Type} (perception : Perception)
    (memories : list Memory.t) (personality : P) (s s' : State)
    (ths : list Thought.t) :
  InternalDialogue.contemplate perception memories personality s = (Ok ths, s') ->
  DialogueState.thoughts (dialogue s') =
    (DialogueState.thoughts (dialogue s) ++ ths)%list /\
  ticks (world s') = (ticks (world s) + length ths)%nat /\
  Spec.stable s s'.
Proof.
  destruct s as [mem [history traits] [files flt wl tk]].
  unfold InternalDialogue.contemplate, InternalDialogue._generate_initial_reaction.
  destruct (default "statement" (question_type perception) =? "philosophical")%string;
    [|destruct (default "statement" (question_type perception) =? "inquiry")%string];
    (destruct memories as [|m0 ms];
     (destruct (traits !! "introspection") as [i|] eqn:Hi;
      [destruct (Py.gt i 0.7) eqn:Ei|]);
     (destruct (traits !! "curiosity") as [c|] eqn:Hc;
      [destruct (Py.gt c 0.6) eqn:Ec|]);
     run_M; intros [= <- <-]; cbn;
     (split; [reflexivity | split; [lia | repeat split]])).
Qed.

(** A raising [contemplate] leaves everything but the clock reading as it
    was; in particular the history is not extended. *)
Lemma contemplate_raise {P : Type} (perception : Perception)
    (memories : list Memory.t) (personality : P) (s s' : State) (e : exn) :
  InternalDialogue.contemplate perception memories personality s = (Raise e, s') ->
  DialogueState.thoughts (dialogue s') = DialogueState.thoughts (dialogue s) /\
  Spec.stable s s'.
Proof.
  destruct s as [mem [history traits] [files flt wl tk]].
  unfold InternalDialogue.contemplate, InternalDialogue._generate_initial_reaction.
  destruct (default "statement" (question_type perception) =? "philosophical")%string;
    [|destruct (default "statement" (question_type perception) =? "inquiry")%string];
    (destruct memories as [|m0 ms];
     (destruct (traits !! "introspection") as [i|] eqn:Hi;
      [destruct (Py.gt i 0.7) eqn:Ei|]);
     (destruct (traits !! "curiosity") as [c|] eqn:Hc;
      [destruct (Py.gt c 0.6) eqn:Ec|]);
     run_M; intros [= <- <-]; cbn; repeat split).
Qed.

(** The [try] block of [think] for an agent with the mind of the source. *)
Lemma think_body_run (name : string) (pers : gmap string bool)
    (stimulus : string) (s : State) :
  SentimentAgent.think_body (SentimentAgent.mk name CoreMind.__init__ pers)
    stimulus s =
  match CoreMind.perceive stimulus with
  | Ok p =>
      match InternalDialogue.contemplate p
              (MemorySystem.recall_from p (MemoryState.memories (memory s)))
              pers s with
      | (Ok ths, s1) =>
          match CoreMind.respond ths with
          | Ok response =>
              match MemorySystem.store p ths response s1 with
              | (Ok _, s2) => (Ok response, s2)
              | (Raise e, s2) => (Raise e, s2)
              end
          | Raise e => (Raise e, s1)
          end
      | (Raise e, s1) => (Raise e, s1)
      end
  | Raise e => (Raise e, s)
  end.
Proof. reflexivity. Qed.

Lemma respond_opening (t0 : Thought.t) (rest : list Thought.t) (r : string) :
  CoreMind.respond (t0 :: rest) = Ok r ->
  exists tail, r = "From my perspective, " ++ tail.
Proof.
  unfold CoreMind.respond.
  destruct (List.filter _ (t0 :: rest)) as [|s0 l]; intros [= <-]; eexists; reflexivity.
Qed.

Lemma gates_present_stable (s s' : State) :
  Spec.stable s s' -> Spec.gates_present s -> Spec.gates_present s'.
Proof. intros (_ & _ & _ & _ & Ht) H. unfold Spec.gates_present. now rewrite Ht. Qed.

(** ** A cycle of the agent of the source *)

(** One successful cycle, as the conversation loop needs it. *)
Lemma think_real_step
    (name : string) (pers : gmap string bool) (stimulus : string) (s : State) :
  Spec.gates_present s ->
  exists response ths m s',
    SentimentAgent.think (SentimentAgent.mk name CoreMind.__init__ pers)
      stimulus s = (Ok response, s') /\
    ths <> [] /\
    (exists tail, response = "From my perspective, " ++ tail) /\
    MemoryState.memories (memory s') =
      (MemoryState.memories (memory s) ++ [m])%list /\
    DialogueState.thoughts (dialogue s') =
      (DialogueState.thoughts (dialogue s) ++ ths)%list /\
    DialogueState.personality_traits (dialogue s') =
      DialogueState.personality_traits (dialogue s).
Proof.
  intros [[i Hi] [c Hc]].
  destruct (CoreMind.perceive stimulus) as [p|] eqn:Hp; [|discriminate Hp].
  destruct (contemplate_gated_by_engine_traits p
              (MemorySystem.recall_from p (MemoryState.memories (memory s)))
              pers s i c Hi Hc) as (ths & s1 & Hrun & Hne & _).
  destruct (contemplate_ok _ _ _ _ _ _ Hrun) as (Hhist & _ & Hmem & _ & _ & _ & Htraits).
  destruct (respond_total ths) as [response Hresp].
  exists response, ths. eexists. eexists.
  unfold SentimentAgent.think, try_except.
  rewrite think_body_run, Hp. cbv iota. rewrite Hrun, Hresp, store_run.
  injection Hp as <-. cbn [raw_input]. cbv iota zeta.
  split; [reflexivity|]. split; [exact Hne|].
  split; [destruct ths as [|t0 rest]; [congruence | now apply (respond_opening t0 rest)]|].
  cbn [memory dialogue MemoryState.memories].
  split; [rewrite Hmem; reflexivity|]. now split.
Qed.


(** X6: With the mind of the source and both gating traits in the profile of
    the engine, [think] never falls back to the apology: it returns the
    reply that [respond] builds from the thoughts of the cycle, appends
    these thoughts to the history, and appends exactly one episodic memory,
    made of the stimulus and the reply and related to the first two
    thoughts; the traits are left as they were. *)
Theorem think_records_interaction
    (name : string) (pers : gmap string bool) (stimulus : string) (s : State)
    (Hgates : Spec.gates_present s) :
  exists response ths m s',
    SentimentAgent.think (SentimentAgent.mk name CoreMind.__init__ pers)
      stimulus s = (Ok response, s') /\
    ths <> [] /\
    CoreMind.respond ths = Ok response /\
    (exists tail, response = "From my perspective, " ++ tail) /\
    MemoryState.memories (memory s') =
      (MemoryState.memories (memory s) ++ [m])%list /\
    Memory.content m = "Input: " ++ stimulus ++ " | Response: " ++ response /\
    Memory.memory_type m = "episodic" /\
    Memory.related_thoughts m = map Thought.content (take 2 ths) /\
    DialogueState.thoughts (dialogue s') =
      (DialogueState.thoughts (dialogue s) ++ ths)%list /\
    DialogueState.personality_traits (dialogue s') =
      DialogueState.personality_traits (dialogue s) /\
    MemoryState.memory_file (memory s') = MemoryState.memory_file (memory s).
Proof.
  destruct Hgates as [[i Hi] [c Hc]].
  set (p := {| raw_input := Some stimulus;
               detected_emotion := Some (CoreMind._analyze_emotion stimulus);
               key_concepts := Some (CoreMind._extract_concepts stimulus);
               question_type := Some (CoreMind._classify_question stimulus);
               complexity :=
                 Some (inject_Z (Z.of_nat (length (Py.split stimulus))) / 10)%Q |}).
  destruct (contemplate_gated_by_engine_traits p
              (MemorySystem.recall_from p (MemoryState.memories (memory s)))
              pers s i c Hi Hc) as (ths & s1 & Hrun & Hne & _).
  destruct (contemplate_ok _ _ _ _ _ _ Hrun) as (Hhist & _ & Hmem & _ & _ & _ & Htraits).
  destruct (respond_total ths) as [response Hresp].
  exists response, ths.
  eexists. eexists.
  unfold SentimentAgent.think, try_except.
  rewrite think_body_run. change (CoreMind.perceive stimulus) with (Ok p).
  cbv iota. rewrite Hrun, Hresp, store_run.
  change (raw_input p) with (Some stimulus). cbv iota zeta.
  split; [reflexivity|]. split; [exact Hne|]. split; [reflexivity|].
  split; [destruct ths as [|t0 rest]; [congruence | now apply (respond_opening t0 rest)]|].
  cbn [memory dialogue MemoryState.memories MemoryState.memory_file].
  split; [rewrite Hmem; reflexivity|].
  cbn [Memory.content Memory.memory_type Memory.related_thoughts].
  repeat split; try assumption. now rewrite Hmem.
Qed.

Lemma think_records_interaction_witness :
  exists response ths m s',
    SentimentAgent.think
      (SentimentAgent.mk "ARIA" CoreMind.__init__ SentimentAgent.initial_personality)
      "I love this wonderful day" Examples.one_memory_state = (Ok response, s') /\
    ths <> [] /\
    CoreMind.respond ths = Ok response /\
    (exists tail, response = "From my perspective, " ++ tail) /\
    MemoryState.memories (memory s') = [Examples.old_memory; m] /\
    Memory.content m =
      "Input: I love this wonderful day | Response: " ++ response.
Proof.
  destruct (think_records_interaction "ARIA" SentimentAgent.initial_personality
              "I love this wonderful day" Examples.one_memory_state)
    as (response & ths & m & s' & H1 & H2 & H3 & H4 & H5 & H6 & _).
  - split; eexists; reflexivity.
  - exists response, ths, m, s'. repeat split; assumption.
Defined.

(** The summary reports the number of memories held and the number of
    thoughts that [get_recent_thoughts()] returns, at most 5, and changes
    nothing. *)
Lemma summary_run (agent : SentimentAgent.t) (s : State) :
  exists sm,
    SentimentAgent.get_personality_summary agent s = (Ok sm, s) /\
    SentimentAgent.total_memories sm = length (MemoryState.memories (memory s)) /\
    SentimentAgent.recent_thoughts sm =
      Nat.min 5 (length (DialogueState.thoughts (dialogue s))) /\
    SentimentAgent.summary_dialogue_traits sm =
      DialogueState.personality_traits (dialogue s) /\
    SentimentAgent.summary_memory_file sm = MemoryState.memory_file (memory s).
Proof.
  pose proof (recent_thoughts_positive 5 s ltac:(lia)) as Hrun.
  eexists. unfold SentimentAgent.get_personality_summary, bind at 1, get.
  unfold bind at 1. rewrite Hrun. unfold ret.
  split; [reflexivity|].
  cbn [SentimentAgent.total_memories SentimentAgent.recent_thoughts
       SentimentAgent.summary_dialogue_traits SentimentAgent.summary_memory_file].
  repeat split. rewrite length_drop. lia.
Qed.

(** X7: In a conversation with an agent that has the mind of the source and
    both gating traits, every question gets a reply built by [respond]
    (never the apology) and adds exactly one memory, so the memory count of
    the personality summary grows by the number of questions; the summary
    never reports more than 5 recent thoughts. *)
Theorem converse_records_every_question
    (name : string) (pers : gmap string bool) (questions : list string)
    (s : State) (Hgates : Spec.gates_present s) :
  let agent := SentimentAgent.mk name CoreMind.__init__ pers in
  exists responses s' sm,
    converse agent questions s = (Ok responses, s') /\
    length responses = length questions /\
    Forall (fun r => exists tail, r = "From my perspective, " ++ tail) responses /\
    length (MemoryState.memories (memory s')) =
      (length (MemoryState.memories (memory s)) + length questions)%nat /\
    (length (DialogueState.thoughts (dialogue s)) + length questions <=
     length (DialogueState.thoughts (dialogue s')))%nat /\
    SentimentAgent.get_personality_summary agent s' = (Ok sm, s') /\
    SentimentAgent.total_memories sm =
      (length (MemoryState.memories (memory s)) + length questions)%nat /\
    (SentimentAgent.recent_thoughts sm <= 5)%nat.
Proof.
  intros agent.
  assert (Hconv : exists responses s',
             converse agent questions s = (Ok responses, s') /\
             length responses = length questions /\
             Forall (fun r => exists tail, r = "From my perspective, " ++ tail) responses /\
             length (MemoryState.memories (memory s')) =
               (length (MemoryState.memories (memory s)) + length questions)%nat /\
             (length (DialogueState.thoughts (dialogue s)) + length questions <=
              length (DialogueState.thoughts (dialogue s')))%nat).
  { revert s Hgates. induction questions as [|q qs IH]; intros s Hgates.
    - exists [], s. cbn. repeat split; try lia. constructor.
    - destruct (think_real_step name pers q s Hgates)
        as (r & ths & m & s1 & Hthink & Hne & Hopen & Hmem & Hhist & Htr).
      assert (Hgates1 : Spec.gates_present s1)
        by (unfold Spec.gates_present; now rewrite Htr).
      destruct (IH s1 Hgates1) as (rs & s2 & Hrun & Hlen & Hall & Hcount & Hh).
      exists (r :: rs), s2. cbn [converse]. unfold bind at 1. fold agent in Hthink.
      rewrite Hthink. unfold bind at 1. rewrite Hrun. unfold ret.
      split; [reflexivity|]. cbn [length].
      split; [now rewrite Hlen|]. split; [now constructor|].
      rewrite Hmem, length_app in Hcount. rewrite Hhist, length_app in Hh.
      cbn [length] in Hcount.
      assert (0 < length ths)%nat by (destruct ths; [congruence | simpl; lia]).
      split; lia. }
  destruct Hconv as (responses & s' & Hrun & Hlen & Hall & Hcount & Hh).
  destruct (summary_run agent s') as (sm & Hsm & Htotal & Hrecent & _).
  exists responses, s', sm. repeat split; try assumption; lia.
Qed.

Lemma converse_records_every_question_witness :
  exists responses s' sm,
    converse
      (SentimentAgent.mk "ARIA" CoreMind.__init__ SentimentAgent.initial_personality)
      ["Why is the sky blue?"; "What a wonderful answer"]
      Examples.one_memory_state = (Ok responses, s') /\
    length responses = 2%nat /\
    SentimentAgent.get_personality_summary
      (SentimentAgent.mk "ARIA" CoreMind.__init__ SentimentAgent.initial_personality)
      s' = (Ok sm, s') /\
    SentimentAgent.total_memories sm = 3%nat.
Proof.
  destruct (converse_records_every_question "ARIA"
              SentimentAgent.initial_personality
              ["Why is the sky blue?"; "What a wonderful answer"]
              Examples.one_memory_state)
    as (responses & s' & sm & H1 & H2 & _ & _ & _ & H6 & H7 & _).
  - split; eexists; reflexivity.
  - exists responses, s', sm. repeat split; assumption.
Defined.

(** ** Construction of the memory system *)

Lemma fromisoformat_valid (s : string) (d : DateTime.t) :
  DateTime.fromisoformat s = Some d -> DateTime.valid d = true.
Proof.
  unfold DateTime.fromisoformat. intros H.
  repeat match type of H with
         | (?x ≫= _) = Some _ =>
             destruct x as [?v|] eqn:?; cbn [mbind option_bind] in H;
             [|discriminate H]
         | (let (_, _) := ?v in _) = Some _ => destruct v
         | (let '(_, _) := ?v in _) = Some _ => destruct v
         | (match ?v with (_, _) => _ end) = Some _ => destruct v
         end.
  cbv zeta in H.
  match type of H with
  | (if ?b then _ else _) = _ => destruct b eqn:Hv; [|discriminate H]
  end.
  now injection H as <-.
Qed.

Lemma decoded_valid (files : gmap string file) (path : string) :
  Forall (fun m => DateTime.valid (Memory.timestamp m) = true)
    (Spec.decoded files path).
Proof.
  unfold Spec.decoded. destruct (files !! path) as [[|data]|]; try constructor.
  destruct (mapM MemorySystem.of_dict data) as [ms|] eqn:E; [|constructor].
  cbn [default]. apply mapM_Some_1 in E.
  induction E as [|d m data ms Hd _ IH]; constructor; [|exact IH].
  unfold MemorySystem.of_dict in Hd.
  destruct (DateTime.fromisoformat (d_timestamp d)) as [ts|] eqn:Hts; [|discriminate].
  cbn [mbind option_bind] in Hd. injection Hd as <-.
  now apply fromisoformat_valid in Hts.
Qed.



Example construction_discards_good_records_with_a_bad_one :
  let good := mkMemoryDict "Input: a | Response: b" "2024-01-01T00:00:00"
                "episodic" 0.5 0.1 [] in
  let bad := mkMemoryDict "Input: c | Response: d" "yesterday"
               "episodic" 0.5 0.1 [] in
  let w := mkWorld (<["m.json" := Document [good; bad]]> ∅) ∅ Examples.clock 0 in
  MemoryState.memories
    (memory (snd (MemorySystem.__init__ "m.json"
                    (mkState (MemoryState.mk "" []) InternalDialogue.__init__ w))))
  = [].
Proof. vm_compute. reflexivity. Qed.

(** ** Durability of the memories *)

Lemma decoded_insert_document (files : gmap string file) (path : string)
    (ms : list Memory.t) :
  Forall (fun m => DateTime.valid (Memory.timestamp m) = true) ms ->
  Spec.decoded (<[path := Document (map MemorySystem.to_dict ms)]> files) path = ms.
Proof.
  intros H. unfold Spec.decoded. rewrite lookup_insert_eq.
  now rewrite decode_encode.
Qed.

Lemma stable_durable (s s' : State) :
  Spec.stable s s' -> Spec.durable s -> Spec.durable s'.
Proof.
  intros (Hm & Hf & Hfl & Hw & _) (H1 & H2 & H3 & H4).
  unfold Spec.durable, Spec.clock_valid. rewrite Hm, Hf, Hfl, Hw. now repeat split.
Qed.

Lemma store_durable (perception : Perception) (thoughts : list Thought.t)
    (response : string) (s s' : State) (r : result unit) :
  Spec.durable s ->
  MemorySystem.store perception thoughts response s = (r, s') ->
  Spec.durable s'.
Proof.
  intros (Hdec & Hval & Hclock & Hfault). rewrite store_run.
  destruct (raw_input perception) as [raw|]; intros [= _ <-];
    [|now repeat split].
  cbv zeta. rewrite Hfault.
  unfold Spec.durable.
  cbn [memory world fs faults wall MemoryState.memories MemoryState.memory_file].
  assert (Hval' : Forall (fun m => DateTime.valid (Memory.timestamp m) = true)
                    (MemoryState.memories (memory s) ++
                     [Memory.mk ("Input: " ++ raw ++ " | Response: " ++ response)
                        (wall (world s) (ticks (world s))) "episodic"
                        (MemorySystem._calculate_importance perception thoughts)
                        (MemorySystem._calculate_emotional_impact thoughts)
                        (map Thought.content (take 2 thoughts))])%list).
  { apply Forall_app. split; [exact Hval|]. constructor; [apply Hclock | constructor]. }
  split; [now rewrite decoded_insert_document|].
  split; [exact Hval'|]. split; [exact Hclock | exact Hfault].
Qed.

(** A run of the [try] block of [think] either changes nothing but the
    clock reading and the history, or ends with a [store] that returned. *)
Lemma think_body_cases_stable (agent : SentimentAgent.t) (stimulus : string)
    (s s' : State) (r : result string) :
  SentimentAgent.think_body agent stimulus s = (r, s') ->
  Spec.stable s s' \/
  exists p ths resp s2,
    Spec.stable s s2 /\ MemorySystem.store p ths resp s2 = (Ok tt, s').
Proof.
  unfold SentimentAgent.think_body, bind at 1, lift.
  destruct (CoreMind.i_perceive (SentimentAgent.mind agent) stimulus) as [p|e0];
    [|intros [= _ <-]; left; reflexivity].
  unfold bind at 1, MemorySystem.recall at 1, bind at 1, get, ret.
  unfold bind at 1.
  destruct (InternalDialogue.contemplate p _ (SentimentAgent.personality agent) s)
    as [[ths|e1] s2] eqn:Hc.
  - destruct (contemplate_ok _ _ _ _ _ _ Hc) as (_ & _ & Hs2).
    unfold bind at 1.
    destruct (CoreMind.i_respond (SentimentAgent.mind agent) ths) as [resp|e2];
      [|intros [= _ <-]; now left].
    unfold bind at 1.
    destruct (MemorySystem.store p ths resp s2) as [[[]|e3] s3] eqn:Hst.
    + intros [= _ <-]. right. now exists p, ths, resp, s2.
    + intros [= _ <-]. left. rewrite store_run in Hst.
      destruct (raw_input p); [discriminate|]. now injection Hst as _ <-.
  - destruct (contemplate_raise _ _ _ _ _ _ Hc) as (_ & Hs2).
    intros [= _ <-]. now left.
Qed.

Lemma think_durable (agent : SentimentAgent.t) (stimulus : string)
    (s s' : State) (r : result string) :
  Spec.durable s ->
  SentimentAgent.think agent stimulus s = (r, s') ->
  Spec.durable s' /\
  MemoryState.memory_file (memory s') = MemoryState.memory_file (memory s).
Proof.
  intros Hdurable Hrun.
  unfold SentimentAgent.think, try_except in Hrun.
  destruct (SentimentAgent.think_body agent stimulus s) as [[resp|e] s1] eqn:Hb;
    injection Hrun as _ <-;
    (destruct (think_body_cases_stable _ _ _ _ _ Hb)
       as [Hst | (p & ths & resp' & s2 & Hst & Hstore)];
     [ split; [now apply (stable_durable s) | now destruct Hst as (-> & _)]
     | split;
       [ eapply store_durable; [|exact Hstore]; now apply (stable_durable s)
       | rewrite store_run in Hstore;
         destruct (raw_input p); [|discriminate];
         injection Hstore as <-; destruct Hst as (<- & _); reflexivity ] ]).
Qed.

(** X9: Whatever the mind of the agent and whether or not the cycle fails,
    [think] keeps the store durable: in a world where writing the memory
    file does not fail and the clock is valid, the memory file decodes to
    exactly the memories held after the call, as it did before, every held
    timestamp is valid, and the path of the file is unchanged. *)
Theorem think_keeps_durable (agent : SentimentAgent.t) (stimulus : string)
    (s s' : State) (r : result string)
    (Hdurable : Spec.durable s)
    (Hrun : SentimentAgent.think agent stimulus s = (r, s')) :
  Spec.durable s' /\
  MemoryState.memory_file (memory s') = MemoryState.memory_file (memory s) /\
  MemoryState.memories (memory s') =
    Spec.decoded (fs (world s')) (MemoryState.memory_file (memory s)).
Proof.
  destruct (think_durable _ _ _ _ _ Hdurable Hrun) as [Hd Hpath].
  split; [exact Hd|]. split; [exact Hpath|].
  destruct Hd as (Hdec & _). now rewrite <- Hpath.
Qed.

Lemma think_keeps_durable_witness :
  Spec.durable
    (snd (SentimentAgent.think
            (fst (SentimentAgent.__init__ "ARIA" None Examples.frozen_world))
            "I love this wonderful day"
            (snd (SentimentAgent.__init__ "ARIA" None Examples.frozen_world)))).
Proof.
  refine (proj1 (think_keeps_durable
                   (fst (SentimentAgent.__init__ "ARIA" None Examples.frozen_world))
                   "I love this wonderful day"
                   (snd (SentimentAgent.__init__ "ARIA" None Examples.frozen_world))
                   _ _ _ (surjective_pairing _))).
  split; [reflexivity|]. split; [constructor|]. split; [|reflexivity].
  intros n. reflexivity.
Defined.

Lemma converse_durable (agent : SentimentAgent.t) (questions : list string)
    (s s' : State) (r : result (list string)) :
  Spec.durable s -> converse agent questions s = (r, s') ->
  Spec.durable s' /\
  MemoryState.memory_file (memory s') = MemoryState.memory_file (memory s).
Proof.
  revert s r s'. induction questions as [|q qs IH]; intros s r s' Hd; cbn [converse].
  - intros [= _ <-]. now split.
  - unfold bind at 1.
    destruct (SentimentAgent.think agent q s) as [[resp|e] s1] eqn:Ht;
      destruct (think_durable _ _ _ _ _ Hd Ht) as (Hd1 & Hp1);
      [|intros [= _ <-]; now split].
    unfold bind at 1.
    destruct (converse agent qs s1) as [[rs|e] s2] eqn:Hc;
      destruct (IH _ _ _ Hd1 Hc) as (Hd2 & Hp2);
      intros [= _ <-]; (split; [exact Hd2 | congruence]).
Qed.

Lemma agent_init_state (name : string) (memory_file : option string) (w : World) :
  snd (SentimentAgent.__init__ name memory_file w) =
  mkState
    (MemoryState.mk (SentimentAgent.memory_path name memory_file)
       (Spec.decoded (fs w) (SentimentAgent.memory_path name memory_file)))
    InternalDialogue.__init__ w.
Proof.
  unfold SentimentAgent.__init__. cbn [snd]. rewrite load_run. cbn [snd].
  unfold Spec.decoded.
  cbn [fs world memory MemoryState.memory_file dialogue].
  destruct (fs w !! SentimentAgent.memory_path name memory_file) as [[|data]|];
    try reflexivity.
  now destruct (mapM MemorySystem.of_dict data).
Qed.

(** X10: The memories of an agent survive a restart: construct an agent, have
    any conversation with it, and construct an agent again with the same
    name and file in the world the conversation left; when the clock is
    valid and writing the memory file does not fail, the second agent starts
    with exactly the memories the first one ended with. *)
Theorem memories_survive_restart
    (name : string) (memory_file : option string) (w : World)
    (questions : list string)
    (Hclock : Spec.clock_valid w)
    (Hwrite : faults w !! SentimentAgent.memory_path name memory_file = None) :
  let agent := fst (SentimentAgent.__init__ name memory_file w) in
  let started := snd (SentimentAgent.__init__ name memory_file w) in
  let ended := snd (converse agent questions started) in
  let restarted := snd (SentimentAgent.__init__ name memory_file (world ended)) in
  MemoryState.memories (memory restarted) = MemoryState.memories (memory ended) /\
  exists tail,
    MemoryState.memories (memory ended) =
    (MemoryState.memories (memory started) ++ tail)%list.
Proof.
  intros agent started ended restarted.
  assert (Hd0 : Spec.durable started).
  { subst started. rewrite agent_init_state. unfold Spec.durable.
    cbn [memory world MemoryState.memories MemoryState.memory_file].
    split; [reflexivity|]. split; [apply decoded_valid|]. now split. }
  destruct (converse agent questions started) as [r s1] eqn:Hc.
  destruct (converse_durable _ _ _ _ _ Hd0 Hc) as ((Hdec & _) & Hpath).
  subst ended restarted. cbn [snd]. split.
  - rewrite agent_init_state. cbn [memory MemoryState.memories].
    rewrite Hdec, Hpath. subst started. rewrite agent_init_state.
    reflexivity.
  - exact (converse_grows _ _ _ _ _ Hc).
Qed.

Lemma memories_survive_restart_witness :
  MemoryState.memories
    (memory
       (snd (SentimentAgent.__init__ "ARIA" None
               (world
                  (snd (converse
                          (fst (SentimentAgent.__init__ "ARIA" None
                                  Examples.frozen_world))
                          ["I love this wonderful day"]
                          (snd (SentimentAgent.__init__ "ARIA" None
                                  Examples.frozen_world))))))))
  = MemoryState.memories
      (memory
         (snd (converse
                 (fst (SentimentAgent.__init__ "ARIA" None Examples.frozen_world))
                 ["I love this wonderful day"]
                 (snd (SentimentAgent.__init__ "ARIA" None Examples.frozen_world))))).
Proof.
  refine (proj1 (memories_survive_restart "ARIA" None Examples.frozen_world
                   ["I love this wonderful day"] _ eq_refl)).
  intros n. reflexivity.
Defined.

(** ** What recall keeps and what it finds again *)

Lemma StronglySorted_app_cross {A} (R : A -> A -> Prop) (l1 l2 : list A) :
  StronglySorted R (l1 ++ l2) ->
  forall a b, In a l1 -> In b l2 -> R a b.
Proof.
  induction l1 as [|x l1 IH]; intros H a b Ha Hb; [destruct Ha|].
  simpl in H. apply StronglySorted_inv in H as [Hs Hx].
  destruct Ha as [<-|Ha].
  - rewrite List.Forall_forall in Hx. apply Hx, in_or_app. now right.
  - now apply IH.
Qed.

(** X11: [recall] returns the best matches: a stored memory that shares a token
    with the key concepts is either among the returned ones or ranked no
    higher than each of them; the number returned is 3, or the number of
    matching memories when there are fewer. *)
Theorem recall_keeps_the_best (perception : Perception) (ms : list Memory.t)
    (m : Memory.t) (Hheld : In m ms) (Hmatch : Spec.shares_token perception m) :
  (In m (MemorySystem.recall_from perception ms) \/
   forall r, In r (MemorySystem.recall_from perception ms) ->
             Spec.ranks_before r m) /\
  length (MemorySystem.recall_from perception ms) =
    Nat.min 3
      (length (List.filter
                 (MemorySystem.relevant (default [] (key_concepts perception)))
                 ms)) /\
  MemorySystem.recall_from perception ms <> [].
Proof.
  assert (Hin : In m (MemorySystem.sort_desc
                        (List.filter
                           (MemorySystem.relevant
                              (default [] (key_concepts perception))) ms))).
  { apply sort_desc_In, filter_In. split; [exact Hheld|].
    now apply relevant_shares_token. }
  split; [|split].
  - unfold MemorySystem.recall_from.
    set (sorted := MemorySystem.sort_desc _) in *.
    rewrite <- (firstn_skipn 3 sorted) in Hin. apply in_app_or in Hin as [Hin|Hin].
    + now left.
    + right. intros r Hr.
      pose proof (sort_desc_sorted
                    (List.filter
                       (MemorySystem.relevant
                          (default [] (key_concepts perception))) ms)) as Hs.
      fold sorted in Hs. rewrite <- (firstn_skipn 3 sorted) in Hs.
      exact (StronglySorted_app_cross _ _ _ Hs r m Hr Hin).
  - apply recall_from_length.
  - intros Hnil. pose proof (recall_from_length perception ms) as Hlen.
    rewrite Hnil in Hlen. cbn [length] in Hlen.
    apply (f_equal (@length _)) in Hnil.
    assert (Hpos : (0 < length (List.filter
                       (MemorySystem.relevant
                          (default [] (key_concepts perception))) ms))%nat).
    { rewrite <- sort_desc_length. destruct (MemorySystem.sort_desc _); [destruct Hin | simpl; lia]. }
    lia.
Qed.

Lemma recall_keeps_the_best_witness :
  (In Examples.ranked_1
      (MemorySystem.recall_from Examples.wonderful Examples.ranked) \/
   forall r, In r (MemorySystem.recall_from Examples.wonderful Examples.ranked) ->
             Spec.ranks_before r Examples.ranked_1) /\
  length (MemorySystem.recall_from Examples.wonderful Examples.ranked) = 3%nat.
Proof.
  destruct (recall_keeps_the_best Examples.wonderful Examples.ranked
              Examples.ranked_1) as (H1 & H2 & _).
  - now left.
  - exists "wonderful". split; [now left | right; now left].
  - split; [exact H1 | exact H2].
Defined.

Lemma split_go_snoc_space (cur : list ascii) (a b : string) :
  Py.split_go cur (a ++ String " " b) = (Py.split_go cur a ++ Py.split b)%list.
Proof.
  revert cur. induction a as [|c a IH]; intros cur.
  - change ("" ++ String " " b) with (String " " b). cbn [Py.split_go].
    change (Py.is_whitespace " ") with true. cbv iota.
    destruct cur; reflexivity.
  - rewrite append_String. cbn [Py.split_go].
    destruct (Py.is_whitespace c).
    + destruct cur; [apply IH|]. rewrite IH. reflexivity.
    + apply IH.
Qed.

Lemma split_space (a b : string) :
  Py.split (a ++ " " ++ b) = (Py.split a ++ Py.split b)%list.
Proof. apply (split_go_snoc_space []). Qed.

(** X12: A memory stored for a stimulus is found again for the same stimulus:
    when the stimulus has a key concept, the memory that [store] creates
    from its perception shares a token with these key concepts, so a
    following [recall] for the same perception is not empty. *)
Theorem stored_interaction_is_recalled
    (stimulus response : string) (thoughts : list Thought.t) (s : State)
    (Hconcepts : CoreMind._extract_concepts stimulus <> []) :
  exists p s' mems,
    CoreMind.perceive stimulus = Ok p /\
    MemorySystem.store p thoughts response s = (Ok tt, s') /\
    MemorySystem.recall p s' = (Ok mems, s') /\
    mems <> [] /\
    exists m, In m (MemoryState.memories (memory s')) /\
      Memory.content m = "Input: " ++ stimulus ++ " | Response: " ++ response /\
      Spec.shares_token p m.
Proof.
  eexists. eexists. eexists. split; [reflexivity|].
  rewrite store_run. cbn [raw_input]. cbv zeta.
  split; [reflexivity|]. split; [reflexivity|].
  cbn [memory MemoryState.memories].
  set (m := Memory.mk _ _ _ _ _ _).
  set (p := mkPerception _ _ _ _ _).
  assert (Hshare : Spec.shares_token p m).
  { destruct (CoreMind._extract_concepts stimulus) as [|c cs] eqn:E; [congruence|].
    exists c. split; [subst p; cbn; now left|].
    assert (Hc : In c (Py.split (Py.lower stimulus))).
    { assert (Hin : In c (CoreMind._extract_concepts stimulus)) by (rewrite E; now left).
      unfold CoreMind._extract_concepts in Hin.
      now apply take_In, filter_In in Hin as [Hin _]. }
    subst m. cbn [Memory.content].
    change ("Input: " ++ stimulus ++ " | Response: " ++ response)
      with ("Input:" ++ " " ++ (stimulus ++ " " ++ ("| Response: " ++ response))).
    rewrite !lower_app, split_space, split_space.
    apply in_or_app. right. apply in_or_app. now left. }
  assert (Hin : In m (MemoryState.memories (memory s) ++ [m])%list)
    by (apply in_or_app; right; now left).
  split.
  - intros Hnil. unfold MemorySystem.recall_from in Hnil.
    assert (Hs : In m (MemorySystem.sort_desc
                         (List.filter (MemorySystem.relevant
                                         (default [] (key_concepts p)))
                            (MemoryState.memories (memory s) ++ [m])%list))).
    { apply sort_desc_In, filter_In. split; [exact Hin|].
      now apply relevant_shares_token. }
    destruct (MemorySystem.sort_desc _) as [|x l]; [destruct Hs | discriminate Hnil].
  - exists m. now repeat split.
Qed.

Lemma stored_interaction_is_recalled_witness :
  exists p s' mems,
    CoreMind.perceive "I love this wonderful day" = Ok p /\
    MemorySystem.store p [] "so do I" Examples.one_memory_state = (Ok tt, s') /\
    MemorySystem.recall p s' = (Ok mems, s') /\
    mems <> [].
Proof.
  destruct (stored_interaction_is_recalled "I love this wonderful day" "so do I"
              [] Examples.one_memory_state)
    as (p & s' & mems & H1 & H2 & H3 & H4 & _).
  - discriminate.
  - now exists p, s', mems.
Defined.

(** ** The reply to a cycle of contemplation *)

Lemma thought_eqb_type_neq (a b : Thought.t) :
  String.eqb (Thought.thought_type a) (Thought.thought_type b) = false ->
  Thought.eqb a b = false.
Proof.
  intros H. unfold Thought.eqb. rewrite H.
  now rewrite andb_false_r.
Qed.

(** Decide the comparisons of numerals in the goal. *)
Ltac compare_numerals :=
  repeat match goal with
    | |- context [(?a ?= ?b)%Q] =>
        let v := eval vm_compute in (a ?= b)%Q in
        match v with
        | Lt => change (a ?= b)%Q with Lt
        | Eq => change (a ?= b)%Q with Eq
        | Gt => change (a ?= b)%Q with Gt
        end
    | |- context [Py.gt ?a ?b] =>
        let v := eval vm_compute in (Py.gt a b) in
        match v with
        | true => change (Py.gt a b) with true
        | false => change (Py.gt a b) with false
        end
    end.

(** X13: The reply to what [contemplate] returns depends on the question type
    and on the first memory only: the meta-reflection and the curious
    thought never reach the reply, whatever the traits of the engine. *)
Theorem reply_of_contemplation {P : Type} (perception : Perception)
    (memories : list Memory.t) (personality : P) (s s' : State)
    (ths : list Thought.t)
    (Hrun : InternalDialogue.contemplate perception memories personality s
            = (Ok ths, s')) :
  let kind := default "statement" (question_type perception) in
  let reaction :=
    if String.eqb kind "philosophical" then
      "this touches on something fundamental that i should consider carefully"
    else if String.eqb kind "inquiry" then
      "i need to access what i know about this topic"
    else "let me process what this person is communicating to me" in
  let reminder m :=
    "this reminds me of previous experiences, particularly around " ++
    Py.lower (Py.slice_to 50 (Memory.content m)) ++ "..." in
  CoreMind.respond ths =
  Ok (match memories with
      | [] => "From my perspective, " ++ reaction
      | m :: _ =>
          if String.eqb kind "philosophical"
             || String.eqb kind "inquiry"
          then "From my perspective, " ++ reaction ++
               " I also consider that " ++ reminder m
          else "From my perspective, " ++ reminder m
      end).
Proof.
  revert Hrun.
  destruct s as [mem [history traits] [files flt wl tk]].
  unfold InternalDialogue.contemplate, InternalDialogue._generate_initial_reaction.
  cbv zeta.
  destruct (default "statement" (question_type perception) =? "philosophical")%string;
    [|destruct (default "statement" (question_type perception) =? "inquiry")%string];
    (destruct memories as [|m0 ms];
     (destruct (traits !! "introspection") as [i|] eqn:Hi;
      [destruct (Py.gt i 0.7) eqn:Ei|]);
     (destruct (traits !! "curiosity") as [c|] eqn:Hc;
      [destruct (Py.gt c 0.6) eqn:Ec|]);
     run_M; intros [= <- _]).
  all: unfold CoreMind.respond.
  all: cbn -[Thought.eqb Py.lower String.append Qcompare Py.gt].
  all: compare_numerals; cbv iota.
  all: rewrite ?thought_eqb_refl, ?thought_eqb_type_neq by reflexivity.
  all: cbn -[Thought.eqb Py.lower String.append Qcompare Py.gt].
  all: rewrite ?lower_app.
  all: reflexivity.
Qed.

Lemma reply_of_contemplation_witness :
  exists ths s',
    InternalDialogue.contemplate Examples.wonderful [Examples.old_memory] tt
      Examples.one_memory_state = (Ok ths, s') /\
    CoreMind.respond ths =
    Ok "From my perspective, this reminds me of previous experiences, particularly around input: hello | response: hi...".
Proof.
  destruct (InternalDialogue.contemplate Examples.wonderful
              [Examples.old_memory] tt Examples.one_memory_state)
    as [[ths|e] s'] eqn:E.
  - exists ths, s'. split; [reflexivity|].
    exact (reply_of_contemplation _ _ _ _ _ _ E).
  - vm_compute in E. discriminate E.
Defined.

(** ** What a cycle of contemplation never produces *)

Lemma prefix_differs (n : nat) (a b : string) :
  Py.slice_to n a <> Py.slice_to n b -> a <> b.
Proof. intros H ->. now apply H. Qed.

(** X14: [contemplate] calls [_reflect_on_memories] only with memories, so the
    thought that this method has for an empty list is never among the
    thoughts returned, although a direct call with no memory returns it. *)
Theorem contemplate_never_admits_inexperience {P : Type}
    (perception : Perception) (memories : list Memory.t) (personality : P)
    (s s' : State) (ths : list Thought.t)
    (Hrun : InternalDialogue.contemplate perception memories personality s
            = (Ok ths, s')) :
  Forall (fun t => Thought.content t <>
                   "I don't have much prior experience with this topic") ths /\
  fst (InternalDialogue._reflect_on_memories [] perception s) =
    Ok (Thought.mk "I don't have much prior experience with this topic"
          (wall (world s) (ticks (world s))) "reflection" 0.6 (-0.1)).
Proof.
  split; [|reflexivity].
  revert Hrun.
  destruct s as [mem [history traits] [files flt wl tk]].
  unfold InternalDialogue.contemplate, InternalDialogue._generate_initial_reaction.
  destruct (default "statement" (question_type perception) =? "philosophical")%string;
    [|destruct (default "statement" (question_type perception) =? "inquiry")%string];
    (destruct memories as [|m0 ms];
     (destruct (traits !! "introspection") as [i|] eqn:Hi;
      [destruct (Py.gt i 0.7) eqn:Ei|]);
     (destruct (traits !! "curiosity") as [c|] eqn:Hc;
      [destruct (Py.gt c 0.6) eqn:Ec|]);
     run_M; intros [= <- _]).
  all: repeat (constructor; [cbn [Thought.content]|]); try constructor.
  all: try (destruct (default [] (key_concepts perception)) as [|c0 cs]).
  all: apply (prefix_differs 4); vm_compute; discriminate.
Qed.

Lemma contemplate_never_admits_inexperience_witness :
  exists ths s',
    InternalDialogue.contemplate Examples.no_perception [] tt
      Examples.one_memory_state = (Ok ths, s') /\
    Forall (fun t => Thought.content t <>
                     "I don't have much prior experience with this topic") ths.
Proof.
  destruct (InternalDialogue.contemplate Examples.no_perception [] tt
              Examples.one_memory_state) as [[ths|e] s'] eqn:E.
  - exists ths, s'. split; [reflexivity|].
    exact (proj1 (contemplate_never_admits_inexperience _ _ _ _ _ _ E)).
  - vm_compute in E. discriminate E.
Defined.

(** ** The thoughts of the last cycle *)

(** X15: Asking for as many recent thoughts as the last cycle of contemplation
    returned gives these thoughts back, whatever the history held before;
    asking for fewer gives the last ones of the cycle. *)
Theorem recent_thoughts_of_last_cycle {P : Type}
    (perception : Perception) (memories : list Memory.t) (personality : P)
    (s s' : State) (ths : list Thought.t) (k : nat)
    (Hrun : InternalDialogue.contemplate perception memories personality s
            = (Ok ths, s'))
    (Hpos : (0 < k)%nat) (Hle : (k <= length ths)%nat) :
  InternalDialogue.get_recent_thoughts (Z.of_nat (length ths)) s' = (Ok ths, s') /\
  InternalDialogue.get_recent_thoughts (Z.of_nat k) s' =
    (Ok (drop (length ths - k) ths), s').
Proof.
  destruct (contemplate_ok _ _ _ _ _ _ Hrun) as (Hhist & _).
  assert (Hlast : forall j, (0 < j <= length ths)%nat ->
            InternalDialogue.get_recent_thoughts (Z.of_nat j) s' =
            (Ok (drop (length ths - j) ths), s')).
  { intros j Hj. rewrite recent_thoughts_positive by lia.
    rewrite Hhist, length_app, Nat2Z.id.
    replace (length (DialogueState.thoughts (dialogue s)) + length ths - j)%nat
      with (length (DialogueState.thoughts (dialogue s)) + (length ths - j))%nat
      by lia.
    now rewrite drop_app_add'. }
  split.
  - rewrite Hlast by lia. now rewrite Nat.sub_diag.
  - now apply Hlast.
Qed.

Lemma recent_thoughts_of_last_cycle_witness :
  exists ths s',
    InternalDialogue.contemplate Examples.no_perception [] tt
      Examples.one_memory_state = (Ok ths, s') /\
    InternalDialogue.get_recent_thoughts (Z.of_nat (length ths)) s' = (Ok ths, s') /\
    InternalDialogue.get_recent_thoughts 2 s' = (Ok (drop (length ths - 2) ths), s').
Proof.
  destruct (InternalDialogue.contemplate Examples.no_perception [] tt
              Examples.one_memory_state) as [[ths|e] s'] eqn:E.
  - exists ths, s'. split; [reflexivity|].
    apply (recent_thoughts_of_last_cycle _ _ _ _ _ _ 2%nat E); [lia|].
    vm_compute in E. injection E as <- _. simpl. lia.
  - vm_compute in E. discriminate E.
Defined.

(** ** The ranges of the data model along a cycle *)

Lemma recall_from_In (perception : Perception) (ms : list Memory.t)
    (m : Memory.t) :
  In m (MemorySystem.recall_from perception ms) -> In m ms.
Proof.
  unfold MemorySystem.recall_from. intros H.
  apply take_In, sort_desc_In, filter_In in H. tauto.
Qed.

Lemma contemplate_in_range {P : Type} (perception : Perception)
    (memories : list Memory.t) (personality : P) (s s' : State)
    (ths : list Thought.t) :
  Forall Spec.memory_in_range memories ->
  InternalDialogue.contemplate perception memories personality s = (Ok ths, s') ->
  Forall Spec.thought_in_range ths.
Proof.
  intros Hmems.
  destruct s as [mem [history traits] [files flt wl tk]].
  unfold InternalDialogue.contemplate, InternalDialogue._generate_initial_reaction.
  destruct (default "statement" (question_type perception) =? "philosophical")%string;
    [|destruct (default "statement" (question_type perception) =? "inquiry")%string];
    (destruct memories as [|m0 ms];
     [|apply Forall_cons in Hmems as [(_ & _ & Hlo & Hhi) _]];
     (destruct (traits !! "introspection") as [i|] eqn:Hi;
      [destruct (Py.gt i 0.7) eqn:Ei|]);
     (destruct (traits !! "curiosity") as [c|] eqn:Hc;
      [destruct (Py.gt c 0.6) eqn:Ec|]);
     run_M; intros [= <- _]).
  all: repeat (constructor;
               [unfold Spec.thought_in_range;
                cbn [Thought.confidence Thought.emotional_valence];
                repeat split; lra|]).
  all: constructor.
Qed.

(** X16: With the mind of the source, [think] keeps the ranges of the data
    model: when every held memory has its importance in [0, 1] and its
    emotional impact in [-1, 1], and every thought of the history has its
    confidence in [0, 1] and its valence in [-1, 1], the same holds after
    the call, whether the cycle succeeds or falls back to the apology. *)
Theorem think_keeps_ranges (name : string) (pers : gmap string bool)
    (stimulus : string) (s s' : State) (r : result string)
    (Hrange : Spec.in_range_state s)
    (Hrun : SentimentAgent.think (SentimentAgent.mk name CoreMind.__init__ pers)
              stimulus s = (r, s')) :
  Spec.in_range_state s'.
Proof.
  destruct Hrange as [Hmems Hths].
  unfold SentimentAgent.think, try_except in Hrun.
  rewrite think_body_run in Hrun.
  destruct (CoreMind.perceive stimulus) as [p|] eqn:Hp; [|discriminate Hp].
  cbv iota in Hrun.
  destruct (InternalDialogue.contemplate p _ pers s) as [[ths|e] s1] eqn:Hc.
  - destruct (contemplate_ok _ _ _ _ _ _ Hc) as (Hhist & _ & Hmem & _).
    assert (Hnew : Forall Spec.thought_in_range ths).
    { eapply contemplate_in_range; [|exact Hc].
      apply List.Forall_forall. intros m Hm. apply recall_from_In in Hm.
      rewrite List.Forall_forall in Hmems. now apply Hmems. }
    destruct (pipeline_importance_in_unit_interval _ _ _ _ _ _ _ Hp Hc)
      as [Hi0 Hi1].
    destruct (respond_total ths) as [response Hresp].
    rewrite Hresp, store_run in Hrun.
    injection Hp as <-. cbn [raw_input] in Hrun. cbv iota zeta in Hrun.
    injection Hrun as _ <-. split; cbn [memory dialogue MemoryState.memories].
    + rewrite Hmem. apply Forall_app. split; [exact Hmems|].
      constructor; [|constructor].
      unfold Spec.memory_in_range.
      cbn [Memory.importance Memory.emotional_impact].
      split; [exact Hi0|]. split; [exact Hi1|].
      unfold MemorySystem._calculate_emotional_impact.
      destruct ths as [|t0 rest]; [split; lra|].
      apply mean_between; [discriminate|].
      apply Forall_map. eapply Forall_impl; [exact Hnew|].
      intros t (_ & _ & H1 & H2). now split.
    + rewrite Hhist. apply Forall_app. now split.
  - destruct (contemplate_raise _ _ _ _ _ _ Hc) as (Hhist & Hmem & _).
    cbn in Hrun. injection Hrun as _ <-. split; [now rewrite Hmem | now rewrite Hhist].
Qed.

Lemma think_keeps_ranges_witness :
  Spec.in_range_state
    (snd (SentimentAgent.think
            (SentimentAgent.mk "ARIA" CoreMind.__init__
               SentimentAgent.initial_personality)
            "I love this wonderful day" Examples.one_memory_state)).
Proof.
  refine (think_keeps_ranges "ARIA" SentimentAgent.initial_personality
            "I love this wonderful day" Examples.one_memory_state _ _ _
            (surjective_pairing _)).
  split; [|constructor].
  constructor; [|constructor].
  unfold Spec.memory_in_range. cbn. repeat split; discriminate.
Defined.

(** ** A file that could not be loaded *)


